(** * Flip Factory backend: the coin ledger and the redemption workflow

    A shallow embedding of [src/app.py].  The two SQLite tables and the
    audit file become fields of a record that every handler takes and
    returns; a Flask handler becomes a function from the fields of its
    request and the store to an outcome and a new store, and requests are
    served one after the other.  What a handler reads from outside comes
    in as an argument: the clock, already formatted, and for the export
    Python's printer of floats.  Python [float]s are IEEE 754 binary64
    values, modelled bit for bit with [spec_float]; Python [int]s are
    integers without bound.  An INTEGER column holds a signed 64-bit
    integer ([sqlite_integer]); the handlers are modelled on the values of
    that range, on which [sqlite3] binds every parameter and the
    arithmetic of SQLite is exact, and a statement that depends on the
    range carries it as a hypothesis. *)

From Stdlib Require Import ZArith Lia Bool QArith Qround.
From Stdlib Require Import Floats.SpecFloat.
From Stdlib Require Import Ascii String.
From stdpp Require Import gmap strings list pretty.

Local Open Scope Z_scope.

(** ** Python floats *)

Module PyFloat.

Definition prec : Z := 53.
Definition emax : Z := 1024.

Definition float := spec_float.

(** [float(n)] for an [int]: the nearest double, ties to even. *)
Definition of_int (n : Z) : float := binary_normalize prec emax n 0 false.

Definition mul : float -> float -> float := SFmul prec emax.
Definition div : float -> float -> float := SFdiv prec emax.

(** Comparisons; every comparison with a NaN is false. *)
Definition leb (x y : float) : bool := SFleb x y.
Definition ltb (x y : float) : bool := SFltb x y.

(** [x <= n] and [x > n] for an [int] literal [n]. *)
Definition le_int (x : float) (n : Z) : bool := leb x (of_int n).
Definition gt_int (x : float) (n : Z) : bool := ltb (of_int n) x.

(** [int(x)]: truncation towards zero.  Python raises [OverflowError] on
    an infinity and [ValueError] on a NaN. *)
Inductive exn := OverflowError | ValueError.

Definition magnitude (m : positive) (e : Z) : Z :=
  match e with
  | Z0 => Zpos m
  | Zpos p => Zpos m * 2 ^ Zpos p
  | Zneg p => Zpos m / 2 ^ Zpos p
  end.

Definition to_int (x : float) : exn + Z :=
  match x with
  | S754_zero _ => inr 0
  | S754_finite s m e => inr (if s then - magnitude m e else magnitude m e)
  | S754_infinity _ => inl OverflowError
  | S754_nan => inl ValueError
  end.

(** The exact rational value of a finite double. *)
Definition to_Q (x : float) : Q :=
  match x with
  | S754_finite s m e =>
      let a := match e with
               | Z0 => inject_Z (Zpos m)
               | Zpos p => inject_Z (Zpos m * 2 ^ Zpos p)
               | Zneg p => Qmake (Zpos m) (2 ^ p)%positive
               end in
      if s then Qopp a else a
  | _ => 0%Q
  end.

(** [int / int], Python's true division (both operands below 2^53 in
    every use the handlers make of it). *)
Definition truediv (a b : Z) : float := div (of_int a) (of_int b).

(** [f"{x:.2f}"]: the exact value rounded to two decimals, ties to even. *)
Definition round_half_even (n d : Z) : Z :=
  let q := n / d in
  let r := n mod d in
  match 2 * r ?= d with
  | Lt => q
  | Gt => q + 1
  | Eq => if Z.even q then q else q + 1
  end.

Definition hundredths (m : positive) (e : Z) : Z :=
  match e with
  | Z0 => Zpos m * 100
  | Zpos p => Zpos m * 2 ^ Zpos p * 100
  | Zneg p => round_half_even (Zpos m * 100) (2 ^ Zpos p)
  end.

Definition two_digits (n : Z) : string :=
  if n <? 10 then "0" +:+ pretty n else pretty n.

Definition fixed2 (neg : bool) (h : Z) : string :=
  (if neg then "-" else EmptyString) +:+ pretty (h / 100) +:+ "." +:+ two_digits (h mod 100).

Definition format_2f (x : float) : string :=
  match x with
  | S754_zero s => fixed2 s 0
  | S754_finite s m e => fixed2 s (hundredths m e)
  | S754_infinity s => if s then "-inf" else "inf"
  | S754_nan => "nan"
  end.

End PyFloat.


Import PyFloat.

(** ** The store: the two tables of [init_db] and the audit file *)

Definition MAX_MONTHLY_COINS : Z := 50000000.
Definition COINS_PER_DOLLAR : Z := 1000000.

(** What an INTEGER column holds and what [sqlite3] binds for a Python
    [int]: a signed 64-bit integer.  Binding any other [int] raises
    [OverflowError] before the statement runs, and a sum that leaves the
    range is stored as a REAL. *)
Definition sqlite_integer (n : Z) : Prop := - 2 ^ 63 <= n < 2 ^ 63.

(** A row of [users] without its key. *)
Record account := {
  monthly_coin_earned : Z;
  monthly_coin_redeemed : Z;
  last_reset : string
}.

Inductive redemption_status := pending | paid | expired.

Global Instance redemption_status_eq_dec : EqDecision redemption_status.
Proof. solve_decision. Defined.

(** A row of [pending_redemptions]; [user_id] is [None] for SQL NULL. *)
Record redemption := {
  id : Z;
  user_id : option string;
  coins_redeemed : Z;
  usd_value : float;
  requested_at : string;
  status : redemption_status
}.

(** A row of the audit file [redemptions.csv]. *)
Record log_row := {
  log_timestamp : string;
  log_user_id : option string;
  log_usd_value : string;
  log_coins_redeemed : Z;
  log_status : string
}.

(** [users] is keyed by [user_id TEXT PRIMARY KEY].  SQLite keeps keys
    unique but, for a primary key that is not an integer, accepts NULL any
    number of times and never matches NULL in [WHERE user_id = ?]: the rows
    with a NULL key are kept apart, in insertion order, in [users_null].
    [csv_log] is [None] until the audit file exists.  The integer columns
    are read as integers; their range is [sqlite_integer]. *)
Record db := {
  users : gmap string account;
  users_null : list account;
  pending_redemptions : list redemption;
  csv_log : option (list log_row)
}.

Definition init_db : db :=
  {| users := ∅; users_null := []; pending_redemptions := []; csv_log := None |}.

(** One reading of [datetime.utcnow()], already formatted both ways. *)
Record clock := {
  utc_date : string;      (* "%Y-%m-%d" *)
  utc_datetime : string   (* "%Y-%m-%d %H:%M:%S" *)
}.

(** ** Outcomes of a request *)

Inductive error :=
  | InvalidRequest        (* 400 *)
  | CapExceeded           (* 403, "Monthly redeem cap exceeded" *)
  | InsufficientBalance.  (* 403, "Insufficient coins" *)

Inductive response :=
  | Earned (coins : Z)
  | Credited (credited : string)
  | Exchanged (usd_requested expires_in : string)
  | Pending (rows : list redemption)
  | MarkedPaid (rid : Z)
  | CsvDocument (csv_data : string)
  | ExpiredBefore (expired_time : string)
  | StatusOf (user : option string) (earned redeemed remaining : Z)
             (dollar_value_redeemed : string)
  | MonthlyReset.

Inductive outcome :=
  | Ok (r : response)
  | Err (e : error)
  | Raise (x : exn).      (* an uncaught exception: the request dies with a 500 *)

(** ** Statements on the tables *)

(** [SELECT * FROM users WHERE user_id = ?] *)
Definition select_user (uid : option string) (d : db) : option account :=
  match uid with
  | Some u => users d !! u
  | None => None
  end.

(** A row as [INSERT INTO users (user_id, last_reset)] leaves it: both
    counters at their default. *)
Definition fresh_account (today : string) : account :=
  {| monthly_coin_earned := 0; monthly_coin_redeemed := 0; last_reset := today |}.

(** [INSERT INTO users (user_id, last_reset) VALUES (?, ?)] *)
Definition insert_user (uid : option string) (today : string) (d : db) : db :=
  let a := fresh_account today in
  match uid with
  | Some u =>
      {| users := <[u := a]> (users d); users_null := users_null d;
         pending_redemptions := pending_redemptions d; csv_log := csv_log d |}
  | None =>
      {| users := users d; users_null := users_null d ++ [a];
         pending_redemptions := pending_redemptions d; csv_log := csv_log d |}
  end.

(** [UPDATE users SET ... WHERE user_id = ?] *)
Definition update_user (uid : option string) (f : account -> account) (d : db) : db :=
  match uid with
  | Some u =>
      {| users := alter f u (users d); users_null := users_null d;
         pending_redemptions := pending_redemptions d; csv_log := csv_log d |}
  | None => d
  end.

Definition add_earned (coins : Z) (a : account) : account :=
  {| monthly_coin_earned := monthly_coin_earned a + coins;
     monthly_coin_redeemed := monthly_coin_redeemed a;
     last_reset := last_reset a |}.

Definition add_redeemed (coins : Z) (a : account) : account :=
  {| monthly_coin_earned := monthly_coin_earned a;
     monthly_coin_redeemed := monthly_coin_redeemed a + coins;
     last_reset := last_reset a |}.

Definition reset_account (today : string) (_ : account) : account :=
  {| monthly_coin_earned := 0; monthly_coin_redeemed := 0; last_reset := today |}.

(** [id INTEGER PRIMARY KEY AUTOINCREMENT]: one more than the largest id
    handed out so far (no row is ever deleted). *)
Definition next_id (rows : list redemption) : Z :=
  1 + foldr Z.max 0 (id <$> rows).

Definition set_rows (rows : list redemption) (d : db) : db :=
  {| users := users d; users_null := users_null d;
     pending_redemptions := rows; csv_log := csv_log d |}.

Definition set_status (s : redemption_status) (r : redemption) : redemption :=
  {| id := id r; user_id := user_id r; coins_redeemed := coins_redeemed r;
     usd_value := usd_value r; requested_at := requested_at r; status := s |}.

(** [SET status = 'paid' WHERE id = ?], on one row. *)
Definition mark_row (rid : Z) (r : redemption) : redemption :=
  if id r =? rid then set_status paid r else r.

(** [SET status = 'expired' WHERE status = 'pending' AND requested_at < ?],
    on one row; the comparison is the one of TEXT values. *)
Definition expire_row (expired_time : string) (r : redemption) : redemption :=
  if bool_decide (status r = pending) && String.ltb (requested_at r) expired_time
  then set_status expired r else r.

(** [not x] for the request fields the handlers test. *)
Definition user_id_missing (uid : option string) : bool :=
  match uid with
  | None => true
  | Some u => bool_decide (u = EmptyString)
  end.

Definition id_missing (rid : option Z) : bool :=
  match rid with
  | None => true
  | Some n => n =? 0
  end.

(** ** The handlers *)

(** [get_or_create_user]: the row read back as a dictionary, and the store
    with the row inserted when the [SELECT] found none. *)
Definition get_or_create_user (t : clock) (uid : option string) (d : db)
  : account * db :=
  match select_user uid d with
  | Some a => (a, d)
  | None =>
      ({| monthly_coin_earned := 0; monthly_coin_redeemed := 0;
          last_reset := utc_date t |},
       insert_user uid (utc_date t) d)
  end.

(** [log_redemption_csv]: one more row in the audit file, created with its
    header on the first call. *)
Definition log_redemption_csv (t : clock) (uid : option string)
    (usd : float) (coins : Z) (d : db) : db :=
  let row := {| log_timestamp := utc_datetime t; log_user_id := uid;
                log_usd_value := format_2f usd; log_coins_redeemed := coins;
                log_status := "pending" |} in
  {| users := users d; users_null := users_null d;
     pending_redemptions := pending_redemptions d;
     csv_log := Some (default [] (csv_log d) ++ [row]) |}.

(** POST /api/coin/earn, for [coins] and a new counter within
    [sqlite_integer]; outside it the [UPDATE] raises or stores a REAL. *)
Definition coin_earn (t : clock) (uid : option string) (coins : Z) (d : db)
  : outcome * db :=
  if user_id_missing uid || (coins <=? 0) then (Err InvalidRequest, d)
  else
    let d1 := snd (get_or_create_user t uid d) in
    (Ok (Earned coins), update_user uid (add_earned coins) d1).

(** POST /api/coin/redeem *)
Definition coin_redeem (t : clock) (uid : option string) (requested_coins : Z)
    (d : db) : outcome * db :=
  if user_id_missing uid || (requested_coins <=? 0) then (Err InvalidRequest, d)
  else
    let '(user, d1) := get_or_create_user t uid d in
    if monthly_coin_redeemed user + requested_coins >? MAX_MONTHLY_COINS
    then (Err CapExceeded, d1)
    else
      let credited_dollars := truediv requested_coins 1000000 in
      (Ok (Credited ("$" +:+ format_2f credited_dollars)),
       update_user uid (add_redeemed requested_coins) d1).

(** [INSERT INTO pending_redemptions (user_id, coins_redeemed, usd_value,
    requested_at)]; [status] takes its default. *)
Definition insert_redemption (uid : option string) (coins : Z) (usd : float)
    (now : string) (d : db) : db :=
  let row := {| id := next_id (pending_redemptions d); user_id := uid;
                coins_redeemed := coins; usd_value := usd;
                requested_at := now; status := pending |} in
  set_rows (pending_redemptions d ++ [row]) d.

(** POST /api/coin/exchange.  [int(usd_requested * COINS_PER_DOLLAR)] is
    evaluated before [usd_requested] is validated. *)
Definition coin_exchange (t : clock) (uid : option string)
    (usd_requested : float) (d : db) : outcome * db :=
  match to_int (mul usd_requested (of_int COINS_PER_DOLLAR)) with
  | inl x => (Raise x, d)
  | inr coins_required =>
      if le_int usd_requested 0 || gt_int usd_requested 100
      then (Err InvalidRequest, d)
      else
        let '(user, d1) := get_or_create_user t uid d in
        let available := monthly_coin_earned user - monthly_coin_redeemed user in
        if coins_required >? available then (Err InsufficientBalance, d1)
        else if monthly_coin_redeemed user + coins_required >? MAX_MONTHLY_COINS
        then (Err CapExceeded, d1)
        else
          let d2 := update_user uid (add_redeemed coins_required) d1 in
          let d3 := insert_redemption uid coins_required usd_requested
                      (utc_datetime t) d2 in
          (Ok (Exchanged ("$" +:+ format_2f usd_requested) "24 hours"),
           log_redemption_csv t uid usd_requested coins_required d3)
  end.

(** GET /api/redeem/pending *)
Definition get_pending_redemptions (d : db) : outcome * db :=
  (Ok (Pending (filter (λ r, status r = pending) (pending_redemptions d))), d).

(** POST /api/redeem/mark_paid:
    [UPDATE pending_redemptions SET status = 'paid' WHERE id = ?], for an
    id within [sqlite_integer]; [sqlite3] does not bind any other. *)
Definition mark_redeem_paid (redemption_id : option Z) (d : db) : outcome * db :=
  if id_missing redemption_id then (Err InvalidRequest, d)
  else
    let rid := default 0 redemption_id in
    (Ok (MarkedPaid rid),
     set_rows (mark_row rid <$> pending_redemptions d) d).

(** POST /api/redeem/expire_old; [expired_time] is the clock reading minus
    24 hours, formatted. *)
Definition expire_old_redemptions (expired_time : string) (d : db)
  : outcome * db :=
  (Ok (ExpiredBefore expired_time),
   set_rows (expire_row expired_time <$> pending_redemptions d) d).

(** GET /api/coin/status *)
Definition coin_status (t : clock) (uid : option string) (d : db)
  : outcome * db :=
  if user_id_missing uid then (Err InvalidRequest, d)
  else
    let '(user, d1) := get_or_create_user t uid d in
    let remaining := Z.max 0 (MAX_MONTHLY_COINS - monthly_coin_redeemed user) in
    (Ok (StatusOf uid (monthly_coin_earned user) (monthly_coin_redeemed user)
           remaining
           ("$" +:+ format_2f (truediv (monthly_coin_redeemed user) 1000000))),
     d1).

(** POST /api/coin/reset_monthly: [UPDATE users SET ...] with no [WHERE]. *)
Definition reset_monthly (t : clock) (d : db) : outcome * db :=
  (Ok MonthlyReset,
   {| users := reset_account (utc_date t) <$> users d;
      users_null := reset_account (utc_date t) <$> users_null d;
      pending_redemptions := pending_redemptions d; csv_log := csv_log d |}).

(** [str] on the values of a row. *)
Definition status_text (s : redemption_status) : string :=
  match s with
  | pending => "pending"
  | paid => "paid"
  | expired => "expired"
  end.

Definition str_user_id (uid : option string) : string := default "None" uid.

Definition csv_header : list string :=
  ["id"; "user_id"; "coins_redeemed"; "usd_value"; "requested_at"; "status"].

Definition comma : ascii := Ascii.ascii_of_nat 44.
Definition newline : ascii := Ascii.ascii_of_nat 10.

(** GET /api/redeem/export_csv.  [str] on a [float] is Python's own
    shortest-digits printer, which is not part of the repository: the
    export takes it as [str_float].  ([export_redemptions_csv], the twin
    that goes through [csv.writer], is left out.) *)
Section CsvExport.

Variable str_float : float -> string.

(** [map(str, row)] *)
Definition row_fields (r : redemption) : list string :=
  [pretty (id r); str_user_id (user_id r); pretty (coins_redeemed r);
   str_float (usd_value r); requested_at r; status_text (status r)].

Definition csv_line (fields : list string) : string :=
  String.concat "," fields +:+ String newline EmptyString.

Definition csv_of_rows (rows : list redemption) : string :=
  foldl (λ csv_data row, csv_data +:+ csv_line (row_fields row))
        (csv_line csv_header) rows.

Definition export_csv (d : db) : outcome * db :=
  (Ok (CsvDocument (csv_of_rows (pending_redemptions d))), d).

(** ** Requests and runs *)

Inductive request :=
  | Earn (t : clock) (uid : option string) (coins : Z)
  | Redeem (t : clock) (uid : option string) (requested_coins : Z)
  | Exchange (t : clock) (uid : option string) (usd : float)
  | Status (t : clock) (uid : option string)
  | ListPending
  | MarkPaid (rid : option Z)
  | ExpireOld (expired_time : string)
  | ResetMonthly (t : clock)
  | ExportCSV.

Definition handle (q : request) (d : db) : outcome * db :=
  match q with
  | Earn t uid coins => coin_earn t uid coins d
  | Redeem t uid coins => coin_redeem t uid coins d
  | Exchange t uid usd => coin_exchange t uid usd d
  | Status t uid => coin_status t uid d
  | ListPending => get_pending_redemptions d
  | MarkPaid rid => mark_redeem_paid rid d
  | ExpireOld cutoff => expire_old_redemptions cutoff d
  | ResetMonthly t => reset_monthly t d
  | ExportCSV => export_csv d
  end.

(** The store after serving the requests one after the other. *)
Definition run (qs : list request) (d : db) : db :=
  foldl (λ d q, snd (handle q d)) d qs.

End CsvExport.

(** ** Reading an export back *)

(** [s.split(c)] for a one-character separator. *)
Fixpoint split_on (c : ascii) (s : string) : list string :=
  match s with
  | EmptyString => [EmptyString]
  | String a s' =>
      if Ascii.eqb a c then EmptyString :: split_on c s'
      else match split_on c s' with
           | w :: ws => String a w :: ws
           | [] => [String a EmptyString]
           end
  end.

(** The lines of a document whose lines all end in a newline. *)
Definition split_lines (s : string) : list string :=
  let pieces := split_on newline s in
  match last pieces with
  | Some EmptyString => removelast pieces
  | _ => pieces
  end.

(** The reader of the specification's round trip (the repository has
    none): rows are split on newlines and fields on commas, after the
    fixed header line. *)
Definition parse_csv (csv_data : string) : option (list (list string)) :=
  match split_lines csv_data with
  | header :: rows =>
      if bool_decide (split_on comma header = csv_header)
      then Some (split_on comma <$> rows)
      else None
  | [] => None
  end.

(** [c] does not occur in [s]. *)
Fixpoint lacks (c : ascii) (s : string) : bool :=
  match s with
  | EmptyString => true
  | String a s' => negb (Ascii.eqb a c) && lacks c s'
  end.

Definition no_delimiter (s : string) : bool := lacks comma s && lacks newline s.

(** The three fields of a row whose text is not fixed by the schema. *)
Definition row_clean (str_float : float -> string) (r : redemption) : bool :=
  no_delimiter (str_user_id (user_id r)) &&
  no_delimiter (str_float (usd_value r)) &&
  no_delimiter (requested_at r).

(** ** Predicates of the ledger *)

Definition within_cap (a : account) : Prop :=
  0 <= monthly_coin_redeemed a <= MAX_MONTHLY_COINS.

Definition covered (a : account) : Prop :=
  monthly_coin_redeemed a <= monthly_coin_earned a.

(** Every row of [users], whatever its key, satisfies [P]. *)
Definition all_accounts (P : account -> Prop) (d : db) : Prop :=
  map_Forall (λ _ a, P a) (users d) /\ Forall P (users_null d).

Definition redeems (u : string) (q : request) : Prop :=
  match q with
  | Redeem _ uid _ => uid = Some u
  | _ => False
  end.

(** A binary64 value, and a dollar amount in (0, 100]. *)
Definition is_double (x : float) : Prop := valid_binary prec emax x = true.

Definition usd_in_range (x : float) : Prop :=
  ltb (of_int 0) x = true /\ leb x (of_int 100) = true.

(** [redeemed <= earned] for the row stored under [u], if there is one. *)
Definition covered_at (u : string) (d : db) : Prop :=
  forall a, users d !! u = Some a -> covered a.

(** The store the last branch of [coin_exchange] builds from the store
    [get_or_create_user] returned. *)
Definition exchanged (t : clock) (uid : option string) (usd : float)
    (c : Z) (d1 : db) : db :=
  log_redemption_csv t uid usd c
    (insert_redemption uid c usd (utc_datetime t)
       (update_user uid (add_redeemed c) d1)).

(** A document made of lines that each end in a newline. *)
Definition unlines (ls : list string) : string :=
  foldr (fun l acc => l +:+ String newline acc) EmptyString ls.

(** ** Sample requests *)

Definition t0 : clock :=
  {| utc_date := "2024-01-01"; utc_datetime := "2024-01-01 00:00:00" |}.

(** [str] on a double that holds a whole number below 10^16, as in
    [str(5.0) == "5.0"]; used where the samples need a printer. *)
Definition repr_whole (x : float) : string :=
  match to_int x with
  | inr n => pretty n +:+ ".0"
  | inl _ => "nan"
  end.

(** Ann earns ten million coins. *)
Definition funded : db := snd (coin_earn t0 (Some "ann") 10000000 init_db).

(** Ann earns, asks for five dollars, and the request is swept a day later. *)
Definition settle_expired : list request :=
  [Earn t0 (Some "ann") 10000000;
   Exchange t0 (Some "ann") (of_int 5);
   ExpireOld "2024-01-02 00:00:01"].

(** 2^1010, about 1.1e304: a double whose product with 1e6 overflows. *)
Definition huge : float := S754_finite false 4503599627370496 958.

(** The double nearest to 0.0000001 dollars, a tenth of a coin. *)
Definition tenth_of_a_coin : float := truediv 1 10000000.

(** The same five dollars asked by Ann, and by a user whose id holds a
    comma. *)
Definition ann_store : db :=
  run repr_whole
    [Earn t0 (Some "ann") 10000000; Exchange t0 (Some "ann") (of_int 5)]
    init_db.

Definition comma_store : db :=
  run repr_whole
    [Earn t0 (Some "a,b") 10000000; Exchange t0 (Some "a,b") (of_int 5)]
    init_db.

(** 2.01 dollars, 25 hours and 1 hour before [t0] plus a day. *)
Definition two_oh_one : float := truediv 201 100.

Definition t_early : clock :=
  {| utc_date := "2024-01-01"; utc_datetime := "2024-01-01 09:00:00" |}.

Definition t_late : clock :=
  {| utc_date := "2024-01-02"; utc_datetime := "2024-01-02 09:00:00" |}.

(** ** The key the routes ask for *)

(** [require_api_key]: the header [X-API-Key] has to be there and be equal
    to [API_KEY]; anything else aborts the request with 403. *)
Definition require_api_key (API_KEY : string) (key : option string) : bool :=
  bool_decide (key = Some API_KEY).

Inductive reply :=
  | Forbidden               (* abort(403) *)
  | Answer (o : outcome).

Section Routes.

Variable API_KEY : string.
Variable str_float : float -> string.

(** A route: the key first, then the handler. *)
Definition serve (key : option string) (q : request) (d : db) : reply * db :=
  if require_api_key API_KEY key
  then (Answer (fst (handle str_float q d)), snd (handle str_float q d))
  else (Forbidden, d).

Definition serve_all (kqs : list (option string * request)) (d : db) : db :=
  foldl (fun d kq => snd (serve (fst kq) (snd kq) d)) d kqs.

End Routes.

(** ** More predicates of the ledger *)

(** The request is about the row of [v], or about every row. *)
Definition touches (v : string) (q : request) : Prop :=
  match q with
  | Earn _ uid _ | Redeem _ uid _ | Exchange _ uid _ | Status _ uid =>
      uid = Some v
  | ResetMonthly _ => True
  | _ => False
  end.

(** The redeemed counter of [u], zero while [u] has no row. *)
Definition redeemed_of (u : string) (d : db) : Z :=
  default 0 (monthly_coin_redeemed <$> users d !! u).

(** The coins of all the requests of [u], whatever their status. *)
Definition coins_requested_by (u : string) (rows : list redemption) : Z :=
  foldr (fun r acc =>
           if bool_decide (user_id r = Some u) then coins_redeemed r + acc
           else acc) 0 rows.

(** Neither a Redeem of [u] nor the monthly reset. *)
Definition keeps_ledger (u : string) (q : request) : Prop :=
  match q with
  | Redeem _ uid _ => uid <> Some u
  | ResetMonthly _ => False
  | _ => True
  end.

(** What the audit file and the table of requests both record. *)
Definition logged (l : log_row) : option string * string * Z * string :=
  (log_user_id l, log_usd_value l, log_coins_redeemed l, log_status l).

Definition requested (r : redemption) : option string * string * Z * string :=
  (user_id r, format_2f (usd_value r), coins_redeemed r, "pending").

Definition remaining_of (o : outcome) : option Z :=
  match o with
  | Ok (StatusOf _ _ _ remaining _) => Some remaining
  | _ => None
  end.

Definition succeeded (o : outcome) : Prop :=
  match o with
  | Ok _ => True
  | _ => False
  end.

(** [usd_requested] given in cents: the double nearest to [k / 100]. *)
Definition cents (k : Z) : float := truediv k 100.

(** The coins line 123 computes for [k] cents are [10000 * k] or one less,
    and exactly [10000 * k] for whole dollars. *)
Definition coins_of_cents (k : Z) : bool :=
  match to_int (mul (cents k) (of_int COINS_PER_DOLLAR)) with
  | inr c =>
      (k * 10000 - 1 <=? c) && (c <=? k * 10000) &&
      implb (k mod 100 =? 0) (c =? k * 10000)
  | inl _ => false
  end.

(** Two rows that differ in their status at most. *)
Definition same_request (r r' : redemption) : Prop :=
  id r' = id r /\ user_id r' = user_id r /\
  coins_redeemed r' = coins_redeemed r /\ usd_value r' = usd_value r /\
  requested_at r' = requested_at r.

(** * Properties *)

(** ** Doubles *)

Lemma magnitude_nonneg m e : 0 <= magnitude m e.
Proof.
  destruct e as [|p|p]; simpl; [lia | | ].
  - apply Z.mul_nonneg_nonneg; [lia | apply Z.pow_nonneg; lia].
  - apply Z.div_pos; [lia | apply Z.pow_pos_nonneg; lia].
Qed.

Lemma binary_round_aux_sign s m e l :
  match binary_round_aux prec emax s m e l with
  | S754_zero s' | S754_finite s' _ _ | S754_infinity s' => s' = s
  | S754_nan => True
  end.
Proof.
  unfold binary_round_aux.
  destruct (shr_fexp prec emax m e l) as [mrs' e'].
  destruct (shr_fexp prec emax _ e' loc_Exact) as [mrs'' e''].
  destruct (shr_m mrs''); [reflexivity | | exact I].
  destruct (e'' <=? emax - prec); reflexivity.
Qed.

Lemma of_int_COINS_PER_DOLLAR :
  of_int COINS_PER_DOLLAR = S754_finite false 8589934592000000 (-33).
Proof. reflexivity. Qed.

Lemma of_int_0 : of_int 0 = S754_zero false.
Proof. reflexivity. Qed.

Lemma of_int_100 : of_int 100 = S754_finite false 7036874417766400 (-46).
Proof. reflexivity. Qed.

(** A positive amount converts to a non-negative number of coins. *)
Lemma coins_required_nonneg usd c :
  le_int usd 0 = false ->
  to_int (mul usd (of_int COINS_PER_DOLLAR)) = inr c -> 0 <= c.
Proof.
  unfold le_int. rewrite of_int_0, of_int_COINS_PER_DOLLAR.
  destruct usd as [s| s | |s m e]; simpl.
  - intros _ [= <-]. lia.
  - discriminate 2.
  - discriminate 2.
  - destruct s; [discriminate 1|]. intros _.
    unfold mul. cbn [SFmul xorb].
    pose proof (binary_round_aux_sign false
      (Z.pos (m * 8589934592000000)) (e + -33) loc_Exact) as Hs.
    destruct (binary_round_aux _ _ _ _ _ _) as [s'|s'| |s' m' e']; simpl.
    + intros [= <-]. lia.
    + discriminate.
    + discriminate.
    + subst s'. intros [= <-]. apply magnitude_nonneg.
Qed.

Lemma iter_pos_preserves {A} (f : A -> A) (P : A -> Prop) :
  (forall x, P x -> P (f x)) -> forall n x, P x -> P (SpecFloat.iter_pos f n x).
Proof.
  intros Hf. induction n as [n IH|n IH|]; intros x Hx; simpl; auto.
Qed.

Lemma shr_1_bound B mrs :
  0 <= shr_m mrs <= B -> 0 <= shr_m (shr_1 mrs) <= B.
Proof.
  destruct mrs as [m r s]. simpl. intros Hm.
  destruct m as [|[p|p|]|p]; simpl; lia.
Qed.

Lemma shr_bound B mrs e n :
  0 <= shr_m mrs <= B ->
  0 <= shr_m (fst (shr mrs e n)) <= B /\ snd (shr mrs e n) = e + Z.max 0 n.
Proof.
  intros Hm. destruct n as [|p|p]; simpl; [split; [auto|lia] | | split; [auto|lia]].
  split; [|lia].
  apply (iter_pos_preserves shr_1 (fun x => 0 <= shr_m x <= B)); [|exact Hm].
  intros x. apply shr_1_bound.
Qed.

Lemma shr_m_of_loc m l : shr_m (shr_record_of_loc m l) = m.
Proof. destruct l as [|[]]; reflexivity. Qed.

Lemma shr_fexp_bound B m e l :
  0 <= m <= B ->
  0 <= shr_m (fst (shr_fexp prec emax m e l)) <= B /\
  snd (shr_fexp prec emax m e l) = Z.max e (fexp prec emax (Zdigits2 m + e)).
Proof.
  intros Hm. unfold shr_fexp.
  destruct (shr_bound B (shr_record_of_loc m l) e
              (fexp prec emax (Zdigits2 m + e) - e)) as [H1 H2].
  { rewrite shr_m_of_loc. exact Hm. }
  split; [exact H1 | rewrite H2; lia].
Qed.

Lemma round_nearest_even_bound m l :
  m <= round_nearest_even m l <= m + 1.
Proof.
  destruct l as [|[]]; simpl; try lia. destruct (Z.even m); lia.
Qed.

Lemma digits2_pos_size p : digits2_pos p = Pos.size p.
Proof. induction p; simpl; congruence. Qed.

Lemma Zdigits2_bound m k : 0 <= k -> 0 <= m < 2 ^ k -> Zdigits2 m <= k.
Proof.
  intros Hk [Hm Hlt]. destruct m as [|p|p]; simpl; [lia | | lia].
  rewrite digits2_pos_size.
  pose proof (Pos.size_le p) as Hle.
  apply Pos2Z.pos_le_pos in Hle. rewrite Pos2Z.inj_pow in Hle.
  rewrite (Pos2Z.inj_xO p) in Hle.
  assert (2 ^ Z.pos (Pos.size p) < 2 ^ (k + 1)) as Hpow.
  { rewrite Z.pow_add_r by lia. change (2 ^ 1) with 2. lia. }
  assert (Z.pos (Pos.size p) < k + 1) by (apply (Z.pow_lt_mono_r_iff 2); lia).
  lia.
Qed.

Lemma digits2_pos_gt p : Z.pos p < 2 ^ Z.pos (digits2_pos p).
Proof.
  rewrite digits2_pos_size. pose proof (Pos.size_gt p) as H.
  apply Pos2Z.pos_lt_pos in H. rewrite Pos2Z.inj_pow in H. exact H.
Qed.

(** A product of two 53-bit mantissas at a small exponent rounds to a
    finite double: [int()] returns. *)
Lemma binary_round_aux_returns s M E :
  0 <= M < 2 ^ 106 -> E <= -79 ->
  exists c, to_int (binary_round_aux prec emax s M E loc_Exact) = inr c.
Proof.
  intros HM HE. unfold binary_round_aux.
  destruct (shr_fexp_bound (2 ^ 106) M E loc_Exact) as [Hm1 He1]; [lia|].
  destruct (shr_fexp prec emax M E loc_Exact) as [mrs' e']. simpl in Hm1, He1.
  pose proof (round_nearest_even_bound (shr_m mrs') (loc_of_shr_record mrs')) as Hr.
  set (m2 := round_nearest_even (shr_m mrs') (loc_of_shr_record mrs')) in *.
  destruct (shr_fexp_bound (2 ^ 106 + 1) m2 e' loc_Exact) as [Hm2 He2]; [lia|].
  destruct (shr_fexp prec emax m2 e' loc_Exact) as [mrs'' e'']. simpl in Hm2, He2.
  assert (Zdigits2 M <= 106) as HdM by (apply Zdigits2_bound; lia).
  assert (Zdigits2 m2 <= 107) as Hd2.
  { apply Zdigits2_bound; [lia|]. change (2 ^ 107) with (2 * 2 ^ 106). lia. }
  assert (e'' <= emax - prec) as Hfin.
  { subst e'' e'. unfold fexp, emin, emax, prec. lia. }
  destruct (shr_m mrs'') as [|p|p]; [eexists; reflexivity | | lia].
  apply Z.leb_le in Hfin. rewrite Hfin. eexists. reflexivity.
Qed.

(** [100.0 ? x] from [x ? 100.0], mantissa and exponent apart. *)
Ltac flip_compare m e :=
  let H := fresh in
  pose proof (Z.compare_antisym e (-46)) as H; rewrite H; clear H;
  pose proof (Pos.compare_antisym m 7036874417766400) as H; rewrite H; clear H.

Lemma usd_in_range_finite usd :
  usd_in_range usd ->
  exists m e, usd = S754_finite false m e /\ e <= -46 /\
              le_int usd 0 = false /\ gt_int usd 100 = false.
Proof.
  unfold usd_in_range, le_int, gt_int, ltb, leb, SFltb, SFleb.
  change (of_int 0) with (S754_zero false).
  change (of_int 100) with (S754_finite false 7036874417766400 (-46)).
  destruct usd as [s|s| |s m e]; cbn [SFcompare];
    try (intros [? ?]; discriminate).
  - destruct s; intros [? ?]; discriminate.
  - destruct s; [intros [? ?]; discriminate|]. intros [_ Hle].
    exists m, e. split; [reflexivity|].
    rewrite Pos.compare_cont_spec in Hle. rewrite Pos.compare_cont_spec.
    cbn [Pos.switch_Eq] in Hle. cbn [Pos.switch_Eq].
    flip_compare m e.
    destruct (e ?= -46) eqn:Hc; cbn [CompOpp].
    + apply (proj1 (Z.compare_eq_iff _ _)) in Hc. split; [lia|]. split; [reflexivity|].
      destruct (Pos.compare m 7036874417766400); cbn [CompOpp];
        [reflexivity|reflexivity|discriminate].
    + apply (proj1 (Z.compare_lt_iff _ _)) in Hc. split; [lia|]. split; reflexivity.
    + discriminate.
Qed.

Lemma is_double_mantissa s m e :
  is_double (S754_finite s m e) -> Z.pos m < 2 ^ 53.
Proof.
  unfold is_double. simpl. unfold bounded, canonical_mantissa.
  intros H. apply andb_true_iff in H as [H _]. apply Z.eqb_eq in H.
  pose proof (digits2_pos_gt m) as Hgt.
  assert (Z.pos (digits2_pos m) <= 53) as Hd.
  { unfold fexp, emin, emax, prec in H. lia. }
  eapply Z.lt_le_trans; [exact Hgt|].
  apply Z.pow_le_mono_r; lia.
Qed.

(** For a dollar amount in (0, 100] the conversion to coins returns. *)
Lemma coins_required_returns usd :
  is_double usd -> usd_in_range usd ->
  exists c, to_int (mul usd (of_int COINS_PER_DOLLAR)) = inr c.
Proof.
  intros Hd Hr. destruct (usd_in_range_finite usd Hr) as (m & e & -> & He & _).
  apply is_double_mantissa in Hd.
  change (of_int COINS_PER_DOLLAR) with (S754_finite false 8589934592000000 (-33)).
  unfold mul. cbn [SFmul xorb].
  apply binary_round_aux_returns; [|lia].
  rewrite Pos2Z.inj_mul. split; [lia|].
  change (2 ^ 106) with (2 ^ 53 * 2 ^ 53).
  apply Z.mul_lt_mono_nonneg; lia.
Qed.

(** *** Shifting a mantissa right *)

Lemma shr_1_div2 mrs : 0 <= shr_m mrs -> shr_m (shr_1 mrs) = shr_m mrs / 2.
Proof.
  destruct mrs as [m r s]. cbn [shr_m]. intros Hm.
  rewrite <- Z.div2_div.
  destruct m as [|[p|p|]|p]; cbn; try reflexivity; lia.
Qed.

Lemma pow2_xO p : 2 ^ Z.pos p~0 = 2 ^ Z.pos p * 2 ^ Z.pos p.
Proof.
  rewrite (Pos2Z.inj_xO p). replace (2 * Z.pos p) with (Z.pos p + Z.pos p) by lia.
  apply Z.pow_add_r; lia.
Qed.

Lemma pow2_xI p : 2 ^ Z.pos p~1 = 2 * 2 ^ Z.pos p * 2 ^ Z.pos p.
Proof.
  rewrite (Pos2Z.inj_xI p). replace (2 * Z.pos p + 1) with (1 + Z.pos p + Z.pos p) by lia.
  rewrite !Z.pow_add_r by lia. reflexivity.
Qed.

Lemma iter_shr_1_div p : forall mrs,
  0 <= shr_m mrs ->
  shr_m (SpecFloat.iter_pos shr_1 p mrs) = shr_m mrs / 2 ^ Z.pos p /\
  0 <= shr_m (SpecFloat.iter_pos shr_1 p mrs).
Proof.
  assert (forall a, 0 <= a -> 0 <= a / 2) as Hhalf
    by (intros a Ha; apply Z.div_pos; lia).
  induction p as [p IH|p IH|]; intros mrs Hm; cbn [SpecFloat.iter_pos].
  - pose proof (shr_1_div2 mrs Hm) as H1.
    assert (0 <= shr_m (shr_1 mrs)) as H1' by (rewrite H1; auto).
    destruct (IH _ H1') as [H2 H2'].
    destruct (IH _ H2') as [H3 H3'].
    split; [|exact H3'].
    rewrite H3, H2, H1, !Z.div_div by (try apply Z.pow_pos_nonneg; lia).
    rewrite pow2_xI. f_equal. ring.
  - destruct (IH _ Hm) as [H2 H2'].
    destruct (IH _ H2') as [H3 H3'].
    split; [|exact H3'].
    rewrite H3, H2, !Z.div_div by (try apply Z.pow_pos_nonneg; lia).
    rewrite pow2_xO. reflexivity.
  - rewrite shr_1_div2 by exact Hm. split; [reflexivity | auto].
Qed.

(** [shr] by [n] places divides the mantissa by [2 ^ n]. *)
Lemma shr_div mrs e n :
  0 <= shr_m mrs ->
  shr_m (fst (shr mrs e n)) = shr_m mrs / 2 ^ Z.max 0 n /\
  snd (shr mrs e n) = e + Z.max 0 n.
Proof.
  intros Hm. destruct n as [|p|p]; cbn [shr fst snd Z.max Z.compare].
  - rewrite Z.div_1_r. split; [reflexivity | lia].
  - split; [apply iter_shr_1_div, Hm | reflexivity].
  - rewrite Z.div_1_r. split; [reflexivity | lia].
Qed.

Lemma shr_fexp_div m e l :
  0 <= m ->
  shr_m (fst (shr_fexp prec emax m e l))
  = m / 2 ^ (Z.max e (fexp prec emax (Zdigits2 m + e)) - e) /\
  snd (shr_fexp prec emax m e l) = Z.max e (fexp prec emax (Zdigits2 m + e)).
Proof.
  intros Hm. unfold shr_fexp.
  destruct (shr_div (shr_record_of_loc m l) e
              (fexp prec emax (Zdigits2 m + e) - e)) as [H1 H2].
  { rewrite shr_m_of_loc. exact Hm. }
  rewrite shr_m_of_loc in H1. rewrite H1, H2. split; [f_equal; f_equal|]; lia.
Qed.

Lemma Zdigits2_gt m : 0 <= m -> m < 2 ^ Zdigits2 m.
Proof.
  intros Hm. destruct m as [|p|p]; [reflexivity | apply digits2_pos_gt | lia].
Qed.

Lemma Zdigits2_nonneg m : 0 <= Zdigits2 m.
Proof. destruct m; cbn; lia. Qed.

(** *** The value that [binary_round_aux] returns

    With [k] the number of binary places the rounded mantissa keeps,
    [int()] of the result is [r / 2 ^ k] for a mantissa [r] next to the
    exact one: the exact mantissa cut to that place, or one more. *)
Lemma binary_round_aux_int M E l :
  0 <= M -> Z.max E (fexp prec emax (Zdigits2 M + E)) <= -2 ->
  exists r,
    let e1 := Z.max E (fexp prec emax (Zdigits2 M + E)) in
    M / 2 ^ (e1 - E) <= r <= M / 2 ^ (e1 - E) + 1 /\
    to_int (binary_round_aux prec emax false M E l) = inr (r / 2 ^ (- e1)).
Proof.
  intros HM He1. unfold binary_round_aux.
  destruct (shr_fexp_div M E l HM) as [Hm1 Hx1].
  destruct (shr_fexp prec emax M E l) as [mrs' e']. cbn [fst snd] in Hm1, Hx1.
  set (e1 := Z.max E (fexp prec emax (Zdigits2 M + E))) in *.
  pose proof (round_nearest_even_bound (shr_m mrs') (loc_of_shr_record mrs')) as Hr.
  set (r := round_nearest_even (shr_m mrs') (loc_of_shr_record mrs')) in *.
  assert (0 <= e1 - E) as Hn by (subst e1; lia).
  assert (0 <= shr_m mrs' < 2 ^ 53) as Hm.
  { rewrite Hm1. split; [apply Z.div_pos; [lia | apply Z.pow_pos_nonneg; lia]|].
    apply Z.div_lt_upper_bound; [apply Z.pow_pos_nonneg; lia|].
    rewrite <- Z.pow_add_r by lia.
    eapply Z.lt_le_trans; [apply Zdigits2_gt, HM|].
    apply Z.pow_le_mono_r; [lia|].
    subst e1. unfold fexp, prec. lia. }
  exists r. split; [rewrite <- Hm1; exact Hr|].
  assert (0 <= r) as Hr0 by lia.
  destruct (shr_fexp_div r e' loc_Exact Hr0) as [Hm2 Hx2].
  destruct (shr_fexp prec emax r e' loc_Exact) as [mrs'' e'']. cbn [fst snd] in Hm2, Hx2.
  assert (Zdigits2 r <= 54) as Hd.
  { apply Zdigits2_bound; [lia|]. change (2 ^ 54) with (2 * 2 ^ 53). lia. }
  pose proof (Zdigits2_nonneg r) as Hd0.
  assert (e' <= e'' <= e' + 1) as He2.
  { rewrite Hx2. unfold fexp, prec, emin, emax. subst e'. subst e1.
    unfold fexp, prec, emin, emax in *. lia. }
  assert (shr_m mrs'' / 2 ^ (- e'') = r / 2 ^ (- e')) as Hval.
  { rewrite Hm2, <- Hx2, Z.div_div
      by first [apply Z.pow_pos_nonneg; lia | apply Z.pow_nonzero; lia].
    rewrite <- Z.pow_add_r by lia. do 2 f_equal. lia. }
  subst e'. rewrite <- Hval.
  assert (0 <= shr_m mrs'') as Hm0.
  { rewrite Hm2. apply Z.div_pos; [lia | apply Z.pow_pos_nonneg; lia]. }
  destruct (shr_m mrs'') as [|p|p] eqn:Hp; [| |lia].
  - cbn [to_int]. rewrite Z.div_0_l; [reflexivity|].
    apply Z.pow_nonzero; lia.
  - assert ((e'' <=? emax - prec) = true) as -> by (apply Z.leb_le; unfold emax, prec; lia).
    cbn [to_int]. f_equal. unfold magnitude.
    destruct e'' as [|q|q]; [lia | lia |]. reflexivity.
Qed.

(** *** The coins of an exchange against the exact product *)

Lemma div_succ_le a D : 0 < D -> (a + 1) / D <= a / D + 1.
Proof.
  intros HD. replace (a / D + 1) with ((a + 1 * D) / D)
    by (rewrite Z.div_add by lia; reflexivity).
  apply Z.div_le_mono; lia.
Qed.

Lemma Qfloor_coins m p :
  Qfloor (to_Q (S754_finite false m (Z.neg p)) * inject_Z COINS_PER_DOLLAR)
  = Z.pos m * COINS_PER_DOLLAR / 2 ^ Z.pos p.
Proof.
  cbn [to_Q]. unfold Qfloor, Qmult, inject_Z. cbn [Qnum Qden].
  rewrite Pos.mul_1_r, Pos2Z.inj_pow. reflexivity.
Qed.

(** [int(usd * 1000000)] is the floor of the exact product, or one more:
    the product is rounded to a double before [int()] cuts it. *)
Lemma coins_required_bracket usd :
  is_double usd -> usd_in_range usd ->
  exists c,
    to_int (mul usd (of_int COINS_PER_DOLLAR)) = inr c /\
    Qfloor (to_Q usd * inject_Z COINS_PER_DOLLAR) <= c
      <= Qfloor (to_Q usd * inject_Z COINS_PER_DOLLAR) + 1.
Proof.
  intros Hd Hr. destruct (usd_in_range_finite usd Hr) as (m & e & -> & He & _).
  apply is_double_mantissa in Hd.
  destruct e as [|p|p]; [lia | lia |].
  rewrite Qfloor_coins.
  change (of_int COINS_PER_DOLLAR) with (S754_finite false 8589934592000000 (-33)).
  unfold mul. cbn [SFmul xorb].
  set (M := Z.pos (m * 8589934592000000)).
  set (E := Z.neg p + -33).
  assert (M = Z.pos m * COINS_PER_DOLLAR * 2 ^ 33) as HM.
  { subst M. rewrite Pos2Z.inj_mul. unfold COINS_PER_DOLLAR.
    change (2 ^ 33) with 8589934592. lia. }
  assert (0 <= M < 2 ^ 106) as HMb.
  { split; [subst M; lia|]. subst M. rewrite Pos2Z.inj_mul.
    change (2 ^ 106) with (2 ^ 53 * 2 ^ 53).
    apply Z.mul_lt_mono_nonneg; lia. }
  assert (Zdigits2 M <= 106) as HdM by (apply Zdigits2_bound; lia).
  pose proof (Zdigits2_nonneg M) as HdM0.
  assert (E <= -79) as HE by (subst E; lia).
  destruct (binary_round_aux_int M E loc_Exact) as (r & [Hr1 Hr2] & Hc).
  { lia. }
  { unfold fexp, prec, emin, emax. lia. }
  cbv zeta in *.
  set (e1 := Z.max E (fexp prec emax (Zdigits2 M + E))) in *.
  assert (E <= e1 <= -26) as He1.
  { subst e1. unfold fexp, prec, emin, emax. lia. }
  exists (r / 2 ^ (- e1)). split; [exact Hc|].
  assert (Z.pos m * COINS_PER_DOLLAR / 2 ^ Z.pos p
          = M / 2 ^ (e1 - E) / 2 ^ (- e1)) as ->.
  { rewrite Z.div_div
      by first [apply Z.pow_pos_nonneg; lia | apply Z.pow_nonzero; lia].
    rewrite <- Z.pow_add_r by lia.
    replace (e1 - E + - e1) with (Z.pos p + 33) by (subst E; lia).
    rewrite HM, Z.pow_add_r by lia.
    rewrite Z.div_mul_cancel_r
      by first [apply Z.pow_nonzero; lia | lia].
    reflexivity. }
  assert (0 < 2 ^ (- e1)) as HD by (apply Z.pow_pos_nonneg; lia).
  split.
  - apply Z.div_le_mono; lia.
  - etransitivity; [apply Z.div_le_mono; [exact HD | exact Hr2]|].
    apply div_succ_le, HD.
Qed.

(** The two bound checks of [coin_exchange] let through exactly the
    amounts in (0, 100], once the conversion to coins has returned. *)
Lemma checks_pass_in_range usd c :
  to_int (mul usd (of_int COINS_PER_DOLLAR)) = inr c ->
  le_int usd 0 = false -> gt_int usd 100 = false -> usd_in_range usd.
Proof.
  unfold usd_in_range, le_int, gt_int, ltb, leb, SFltb, SFleb.
  rewrite of_int_0, of_int_100.
  destruct usd as [s|s| |s m e]; cbn [SFcompare mul SFmul to_int].
  - intros _ Hlo. discriminate Hlo.
  - discriminate 1.
  - discriminate 1.
  - intros _. destruct s; [discriminate 1|]. intros _.
    rewrite !Pos.compare_cont_spec. cbn [Pos.switch_Eq].
    flip_compare m e.
    destruct (e ?= -46); cbn [CompOpp]; try (intros; split; congruence).
    destruct (Pos.compare m 7036874417766400); cbn [CompOpp Pos.switch_Eq];
      intros; split; congruence.
Qed.

(** *** Integers as doubles *)

Lemma iter_xO_value p n : Z.pos (Pos.iter xO p n) = Z.pos p * 2 ^ Z.pos n.
Proof.
  induction n as [|n IH] using Pos.peano_ind.
  - cbn [Pos.iter]. rewrite (Pos2Z.inj_xO p). change (2 ^ 1) with 2. lia.
  - rewrite Pos.iter_succ, (Pos2Z.inj_xO (Pos.iter xO p n)), IH.
    rewrite Pos2Z.inj_succ, Z.pow_succ_r by lia. ring.
Qed.

Lemma iter_xO_digits p n :
  digits2_pos (Pos.iter xO p n) = (digits2_pos p + n)%positive.
Proof.
  induction n as [|n IH] using Pos.peano_ind.
  - cbn [Pos.iter digits2_pos]. lia.
  - rewrite Pos.iter_succ. cbn [digits2_pos]. rewrite IH. lia.
Qed.

(** A mantissa of 53 bits at an exponent in range is rounded to itself. *)
Lemma binary_round_aux_exact s m e :
  Z.pos (digits2_pos m) = 53 -> -1074 <= e <= 971 ->
  binary_round_aux prec emax s (Z.pos m) e loc_Exact = S754_finite s m e.
Proof.
  intros Hd He.
  assert (shr_fexp prec emax (Z.pos m) e loc_Exact
          = ({| shr_m := Z.pos m; shr_r := false; shr_s := false |}, e)) as Hshr.
  { unfold shr_fexp. cbn [Zdigits2 shr_record_of_loc]. rewrite Hd.
    assert (fexp prec emax (53 + e) - e = 0) as ->
      by (unfold fexp, prec, emin, emax; lia).
    reflexivity. }
  unfold binary_round_aux. rewrite Hshr.
  cbn [shr_m loc_of_shr_record round_nearest_even]. rewrite Hshr. cbn [shr_m].
  assert ((e <=? emax - prec) = true) as ->
    by (apply Z.leb_le; unfold emax, prec; lia).
  reflexivity.
Qed.

Lemma digits2_pos_le p : 2 ^ Z.pos (digits2_pos p) <= 2 * Z.pos p.
Proof.
  rewrite digits2_pos_size. pose proof (Pos.size_le p) as H.
  apply Pos2Z.pos_le_pos in H. rewrite Pos2Z.inj_pow in H.
  rewrite (Pos2Z.inj_xO p) in H. exact H.
Qed.

(** [float(k)] is exact below 2^53: the mantissa is [k] shifted to 53
    bits. *)
Lemma of_int_exact k :
  0 < k < 2 ^ 53 ->
  exists m,
    of_int k = S754_finite false m (Zdigits2 k - 53) /\
    Z.pos m = k * 2 ^ (53 - Zdigits2 k) /\
    Z.pos (digits2_pos m) = 53 /\ 1 <= Zdigits2 k <= 53.
Proof.
  intros [Hk0 Hk]. destruct k as [|p|p]; [lia | | lia].
  assert (Zdigits2 (Z.pos p) <= 53) as Hd by (apply Zdigits2_bound; lia).
  cbn [Zdigits2] in *.
  unfold of_int. cbn [binary_normalize]. unfold binary_round, shl_align.
  assert (fexp prec emax (Z.pos (digits2_pos p) + 0)
          = Z.pos (digits2_pos p) - 53) as ->
    by (unfold fexp, prec, emin, emax; lia).
  destruct (Z.pos (digits2_pos p) - 53 - 0) as [|n|n] eqn:Hn; [| lia |].
  - exists p. assert (Z.pos (digits2_pos p) = 53) as H53 by lia.
    rewrite H53 in *. change (53 - 53) with 0.
    rewrite binary_round_aux_exact by (rewrite ?H53; lia).
    repeat split; try (change (2 ^ 0) with 1); lia.
  - exists (Pos.iter xO p n).
    assert (Z.pos n = 53 - Z.pos (digits2_pos p)) as Hn' by lia.
    assert (Z.pos (digits2_pos (Pos.iter xO p n)) = 53) as H53.
    { rewrite iter_xO_digits, Pos2Z.inj_add. lia. }
    rewrite binary_round_aux_exact by (rewrite ?H53; lia).
    rewrite iter_xO_value, Hn'. repeat split; lia.
Qed.

(** *** Rounding to cents *)

Lemma round_half_even_nearest n d :
  0 < d -> - d <= 2 * (round_half_even n d * d - n) <= d.
Proof.
  intros Hd. unfold round_half_even.
  pose proof (Z.div_mod n d ltac:(lia)) as Hnd.
  pose proof (Z.mod_pos_bound n d Hd) as Hr.
  destruct (2 * (n mod d) ?= d) eqn:Hc.
  - apply Z.compare_eq in Hc. destruct (Z.even (n / d)); nia.
  - apply (proj1 (Z.compare_lt_iff _ _)) in Hc. nia.
  - apply (proj1 (Z.compare_gt_iff _ _)) in Hc. nia.
Qed.

(** *** The double that [binary_round_aux] returns *)

(** The result is the mantissa [r] at the exponent [e1] of the first
    shift: [r] itself, or its half at [e1 + 1] when rounding carried into
    the 54th bit. *)
Lemma binary_round_aux_value M E l :
  0 <= M -> Z.max E (fexp prec emax (Zdigits2 M + E)) <= 970 ->
  exists r,
    let e1 := Z.max E (fexp prec emax (Zdigits2 M + E)) in
    M / 2 ^ (e1 - E) <= r <= M / 2 ^ (e1 - E) + 1 /\
    ((r = 0 /\ binary_round_aux prec emax false M E l = S754_zero false) \/
     exists m e,
       binary_round_aux prec emax false M E l = S754_finite false m e /\
       e1 <= e <= e1 + 1 /\ Z.pos m * 2 ^ (e - e1) = r).
Proof.
  intros HM He1. unfold binary_round_aux.
  destruct (shr_fexp_div M E l HM) as [Hm1 Hx1].
  destruct (shr_fexp prec emax M E l) as [mrs' e']. cbn [fst snd] in Hm1, Hx1.
  set (e1 := Z.max E (fexp prec emax (Zdigits2 M + E))) in *.
  pose proof (round_nearest_even_bound (shr_m mrs') (loc_of_shr_record mrs')) as Hr.
  set (r := round_nearest_even (shr_m mrs') (loc_of_shr_record mrs')) in *.
  assert (0 <= e1 - E) as Hn by (subst e1; lia).
  assert (-1074 <= e1) as Hmin by (subst e1; unfold fexp, prec, emin, emax; lia).
  assert (0 <= shr_m mrs' < 2 ^ 53) as Hm.
  { rewrite Hm1. split; [apply Z.div_pos; [lia | apply Z.pow_pos_nonneg; lia]|].
    apply Z.div_lt_upper_bound; [apply Z.pow_pos_nonneg; lia|].
    rewrite <- Z.pow_add_r by lia.
    eapply Z.lt_le_trans; [apply Zdigits2_gt, HM|].
    apply Z.pow_le_mono_r; [lia|].
    subst e1. unfold fexp, prec. lia. }
  exists r. split; [rewrite <- Hm1; exact Hr|].
  assert (0 <= r) as Hr0 by lia.
  destruct (shr_fexp_div r e' loc_Exact Hr0) as [Hm2 Hx2].
  destruct (shr_fexp prec emax r e' loc_Exact) as [mrs'' e'']. cbn [fst snd] in Hm2, Hx2.
  subst e'.
  pose proof (Zdigits2_nonneg r) as Hd0.
  assert (e'' = e1 /\ shr_m mrs'' = r \/
          e'' = e1 + 1 /\ r = 2 ^ 53 /\ shr_m mrs'' = 2 ^ 52) as Hcase.
  { destruct (Z.lt_ge_cases r (2 ^ 53)) as [Hlt | Hge].
    - left. assert (Zdigits2 r <= 53) as Hd by (apply Zdigits2_bound; lia).
      assert (e'' = e1) as He.
      { rewrite Hx2. unfold fexp, prec, emin, emax. lia. }
      split; [exact He|]. rewrite Hm2, <- Hx2, He, Z.sub_diag.
      apply Z.div_1_r.
    - right. assert (r = 2 ^ 53) as Hr53 by lia.
      assert (e'' = e1 + 1) as He.
      { rewrite Hx2, Hr53. change (Zdigits2 (2 ^ 53)) with 54.
        unfold fexp, prec, emin, emax. lia. }
      split; [exact He|]. split; [exact Hr53|].
      rewrite Hm2, <- Hx2, He, Hr53.
      replace (e1 + 1 - e1) with 1 by lia. reflexivity. }
  destruct Hcase as [[-> Hs] | (-> & Hr53 & Hs)]; rewrite Hs.
  - destruct r as [|p|p]; [left; auto | right | lia].
    assert ((e1 <=? emax - prec) = true) as ->
      by (apply Z.leb_le; unfold emax, prec; lia).
    exists p, e1. split; [reflexivity|]. split; [lia|].
    rewrite Z.sub_diag. change (2 ^ 0) with 1. lia.
  - right. change (2 ^ 52) with (Z.pos 4503599627370496).
    assert ((e1 + 1 <=? emax - prec) = true) as ->
      by (apply Z.leb_le; unfold emax, prec; lia).
    exists 4503599627370496%positive, (e1 + 1). split; [reflexivity|].
    split; [lia|]. rewrite Hr53. replace (e1 + 1 - e1) with 1 by lia.
    reflexivity.
Qed.

(** *** [requested_coins / 1_000_000], to the cent *)

Lemma format_2f_cents m e h :
  e < 0 -> h = round_half_even (Z.pos m * 100) (2 ^ (- e)) ->
  format_2f (S754_finite false m e) = fixed2 false h.
Proof.
  intros He ->. destruct e as [|p|p]; [lia | lia |]. reflexivity.
Qed.

(** The credit of [k] coins is printed as the number of cents nearest to
    [k / 10000] (on a tie, either neighbour). *)
Lemma credited_cents k :
  0 < k <= MAX_MONTHLY_COINS ->
  exists h,
    format_2f (truediv k 1000000) = fixed2 false h /\
    -5000 <= 10000 * h - k <= 5000.
Proof.
  intros Hk. unfold MAX_MONTHLY_COINS in Hk.
  destruct (of_int_exact k) as (m1 & Hof & Hm1 & Hd1 & Hdk).
  { change (2 ^ 53) with 9007199254740992. lia. }
  assert (Zdigits2 k <= 26) as Hd26.
  { apply Zdigits2_bound; [lia|]. change (2 ^ 26) with 67108864. lia. }
  set (d := Zdigits2 k) in *.
  unfold truediv, div. rewrite Hof.
  change (of_int 1000000) with (S754_finite false 8589934592000000 (-33)).
  cbn [SFdiv xorb]. unfold SFdiv_core_binary. cbn [Zdigits2].
  rewrite Hd1. change (Z.pos (digits2_pos 8589934592000000)) with 53.
  assert (Z.min (fexp prec emax (53 + (d - 53) - (53 + -33))) (d - 53 - -33)
          = d - 73) as ->
    by (unfold fexp, prec, emin, emax; lia).
  replace (d - 53 - -33 - (d - 73)) with 53 by lia.
  rewrite Z.shiftl_mul_pow2 by lia.
  pose proof (Z_div_mod (Z.pos m1 * 2 ^ 53) (Z.pos 8589934592000000)
                ltac:(lia)) as Hdiv.
  destruct (Z.div_eucl (Z.pos m1 * 2 ^ 53) (Z.pos 8589934592000000))
    as [q r0].
  destruct Hdiv as [Hq Hr0].
  set (l := new_location (Z.pos 8589934592000000) r0). clearbody l.
  assert (0 < 2 ^ (53 - d)) as Hpd by (apply Z.pow_pos_nonneg; lia).
  assert (0 <= q < 2 ^ 54) as Hqb.
  { assert (Z.pos m1 < 2 ^ 53) as Hm53.
    { pose proof (digits2_pos_gt m1) as H. rewrite Hd1 in H. exact H. }
    change (2 ^ 53) with 9007199254740992 in *.
    change (2 ^ 54) with 18014398509481984. nia. }
  assert (Zdigits2 q <= 54) as Hdq by (apply Zdigits2_bound; lia).
  pose proof (Zdigits2_nonneg q) as Hdq0.
  destruct (binary_round_aux_value q (d - 73) l) as (r & [Hr1 Hr2] & Hres).
  { lia. }
  { unfold fexp, prec, emin, emax. lia. }
  cbv zeta in *.
  set (e1 := Z.max (d - 73) (fexp prec emax (Zdigits2 q + (d - 73)))) in *.
  assert (d - 73 <= e1 <= d - 72) as He1.
  { subst e1. unfold fexp, prec, emin, emax. lia. }
  set (n := e1 - (d - 73)) in *.
  set (a := q / 2 ^ n) in *.
  assert (0 < 2 ^ n) as Hpn by (apply Z.pow_pos_nonneg; subst n; lia).
  assert (0 < 2 ^ (- e1)) as HD by (apply Z.pow_pos_nonneg; lia).
  (* the exact quotient, at the place of the last bit kept *)
  assert (a * 1000000 <= k * 2 ^ (- e1) < (a + 1) * 1000000) as Hex.
  { assert (a * 2 ^ n <= q < (a + 1) * 2 ^ n) as Ha.
    { subst a. pose proof (Z.div_mod q (2 ^ n) ltac:(lia)) as H1.
      pose proof (Z.mod_pos_bound q (2 ^ n) Hpn) as H2. nia. }
    assert (2 ^ (53 - d) * 2 ^ 53 = 2 ^ 33 * 2 ^ n * 2 ^ (- e1)) as Hpow.
    { rewrite <- !Z.pow_add_r by (subst n; lia). f_equal. subst n. lia. }
    assert (0 < 2 ^ 33 * 2 ^ n) as Hpos by lia.
    assert (Z.pos 8589934592000000 = 1000000 * 2 ^ 33) as Hm2 by reflexivity.
    rewrite Hm2 in Hq, Hr0. rewrite Hm1 in Hq.
    set (D := 2 ^ (- e1)) in *. set (P := 2 ^ 33 * 2 ^ n) in *.
    assert (k * D * P = 1000000 * 2 ^ 33 * q + r0) as Hq'.
    { rewrite <- Hq. replace (k * D * P) with (k * (P * D)) by ring.
      rewrite <- Hpow. ring. }
    assert (1000000 * 2 ^ 33 * q = 1000000 * q * 2 ^ 33) as Hsw by ring.
    split.
    - apply (Z.mul_le_mono_pos_r _ _ P Hpos).
      replace (a * 1000000 * P) with (1000000 * 2 ^ 33 * (a * 2 ^ n))
        by (subst P; ring).
      nia.
    - apply (Z.mul_lt_mono_pos_r P _ _ Hpos).
      replace ((a + 1) * 1000000 * P)
        with (1000000 * 2 ^ 33 * ((a + 1) * 2 ^ n)) by (subst P; ring).
      nia. }
  assert (70368744177664 <= 2 ^ (- e1)) as HDbig.
  { change 70368744177664 with (2 ^ 46). apply Z.pow_le_mono_r; lia. }
  destruct Hres as [[Hr0' ->] | (m & e & -> & He & Hme)].
  - exists 0. split; [reflexivity|]. nia.
  - exists (round_half_even (Z.pos m * 100) (2 ^ (- e))).
    split; [apply format_2f_cents; [lia | reflexivity]|].
    assert (0 < 2 ^ (- e)) as HDe by (apply Z.pow_pos_nonneg; lia).
    pose proof (round_half_even_nearest (Z.pos m * 100) (2 ^ (- e)) HDe) as Hh.
    set (h := round_half_even (Z.pos m * 100) (2 ^ (- e))) in *.
    assert (2 ^ (- e1) = 2 ^ (- e) * 2 ^ (e - e1)) as HDD.
    { rewrite <- Z.pow_add_r by lia. f_equal. lia. }
    assert (0 < 2 ^ (e - e1)) as Hs by (apply Z.pow_pos_nonneg; lia).
    set (D := 2 ^ (- e1)) in *. set (De := 2 ^ (- e)) in *.
    set (S := 2 ^ (e - e1)) in *.
    assert (- D <= 2 * (h * D - 100 * r) <= D) as HhD.
    { rewrite HDD, <- Hme. nia. }
    assert (- 1000000 <= 1000000 * r - k * D <= 1000000) as Hrk by nia.
    nia.
Qed.

(** ** Statements on [users] *)

Lemma get_or_create_user_found t u a d :
  users d !! u = Some a -> get_or_create_user t (Some u) d = (a, d).
Proof. intros H. unfold get_or_create_user. simpl. rewrite H. reflexivity. Qed.

Lemma get_or_create_user_new t u d :
  users d !! u = None ->
  get_or_create_user t (Some u) d
  = (fresh_account (utc_date t), insert_user (Some u) (utc_date t) d).
Proof. intros H. unfold get_or_create_user. simpl. rewrite H. reflexivity. Qed.

Lemma get_or_create_user_null t d :
  get_or_create_user t None d
  = (fresh_account (utc_date t), insert_user None (utc_date t) d).
Proof. reflexivity. Qed.

(** The row handed back is the row now stored under the key. *)
Lemma get_or_create_user_lookup t u d :
  users (snd (get_or_create_user t (Some u) d)) !! u
  = Some (fst (get_or_create_user t (Some u) d)).
Proof.
  destruct (users d !! u) as [a|] eqn:E.
  - rewrite (get_or_create_user_found t u a d E). exact E.
  - rewrite (get_or_create_user_new t u d E). simpl. apply lookup_insert_eq.
Qed.

Lemma get_or_create_user_other t uid v d :
  uid <> Some v ->
  users (snd (get_or_create_user t uid d)) !! v = users d !! v.
Proof.
  intros Hne. unfold get_or_create_user.
  destruct (select_user uid d); [reflexivity|].
  destruct uid as [u|]; simpl; [|reflexivity].
  apply lookup_insert_ne. congruence.
Qed.

Lemma get_or_create_user_rows t uid d :
  pending_redemptions (snd (get_or_create_user t uid d)) = pending_redemptions d.
Proof.
  unfold get_or_create_user.
  destruct (select_user uid d); [reflexivity|]. destruct uid; reflexivity.
Qed.

Lemma get_or_create_user_all P t uid d :
  (forall today, P (fresh_account today)) ->
  all_accounts P d ->
  all_accounts P (snd (get_or_create_user t uid d)) /\
  P (fst (get_or_create_user t uid d)).
Proof.
  intros Hfresh [Hm Hn]. unfold get_or_create_user.
  destruct (select_user uid d) as [a|] eqn:E; simpl.
  - split; [split; assumption|].
    destruct uid as [u|]; [|discriminate]. simpl in E. exact (Hm u a E).
  - split; [|apply Hfresh].
    destruct uid as [u|]; simpl; split; simpl; auto.
    + apply map_Forall_insert_2; [apply Hfresh | exact Hm].
    + apply Forall_app. split; [exact Hn|]. constructor; [apply Hfresh | constructor].
Qed.

Lemma update_user_all P uid f d :
  all_accounts P d ->
  (forall u a, uid = Some u -> users d !! u = Some a -> P (f a)) ->
  all_accounts P (update_user uid f d).
Proof.
  intros [Hm Hn] Hf. destruct uid as [u|]; [|split; assumption].
  split; simpl; [|exact Hn].
  intros k x. rewrite lookup_alter. case_decide as Hk.
  - subst k. destruct (users d !! u) as [a|] eqn:E; simpl; [|discriminate].
    intros [= <-]. exact (Hf u a eq_refl E).
  - apply Hm.
Qed.

Lemma all_accounts_same_users P d d' :
  users d' = users d -> users_null d' = users_null d ->
  all_accounts P d -> all_accounts P d'.
Proof. unfold all_accounts. intros -> ->. auto. Qed.

Lemma update_user_lookup uid f d u :
  users (update_user uid f d) !! u
  = if decide (uid = Some u) then f <$> users d !! u else users d !! u.
Proof.
  destruct uid as [v|]; cbn [update_user users].
  - rewrite lookup_alter. repeat case_decide; congruence.
  - case_decide; [discriminate | reflexivity].
Qed.

Lemma update_user_rows uid f d :
  pending_redemptions (update_user uid f d) = pending_redemptions d.
Proof. destruct uid; reflexivity. Qed.

Lemma update_user_null uid f d :
  users_null (update_user uid f d) = users_null d.
Proof. destruct uid; reflexivity. Qed.

Lemma log_redemption_csv_users t uid usd c d :
  users (log_redemption_csv t uid usd c d) = users d /\
  users_null (log_redemption_csv t uid usd c d) = users_null d /\
  pending_redemptions (log_redemption_csv t uid usd c d) = pending_redemptions d.
Proof. repeat split. Qed.

Lemma all_accounts_init P : all_accounts P init_db.
Proof. split; simpl; [apply map_Forall_empty | constructor]. Qed.

(** ** The monthly cap, handler by handler *)

Lemma within_cap_fresh today : within_cap (fresh_account today).
Proof. unfold within_cap, MAX_MONTHLY_COINS. simpl. lia. Qed.

Lemma coin_earn_within_cap t uid coins d :
  all_accounts within_cap d -> all_accounts within_cap (snd (coin_earn t uid coins d)).
Proof.
  intros H. unfold coin_earn.
  destruct (user_id_missing uid || (coins <=? 0)); [exact H|]. cbn [fst snd].
  destruct (get_or_create_user_all within_cap t uid d within_cap_fresh H) as [H1 _].
  apply update_user_all; [exact H1|].
  intros u a _ Ha. destruct H1 as [Hm _]. exact (Hm u a Ha).
Qed.

Lemma coin_redeem_within_cap t uid coins d :
  all_accounts within_cap d -> all_accounts within_cap (snd (coin_redeem t uid coins d)).
Proof.
  intros H. unfold coin_redeem.
  destruct (user_id_missing uid || (coins <=? 0)) eqn:Hv; [exact H|].
  apply orb_false_iff in Hv as [_ Hpos]. apply Z.leb_gt in Hpos.
  destruct (get_or_create_user_all within_cap t uid d within_cap_fresh H) as [H1 _].
  destruct uid as [u|].
  - pose proof (get_or_create_user_lookup t u d) as Hl.
    destruct (get_or_create_user t (Some u) d) as [user d1]. cbn [fst snd] in H1, Hl |- *.
    destruct (monthly_coin_redeemed user + coins >? MAX_MONTHLY_COINS) eqn:Hcap;
      [exact H1|]. cbn [fst snd].
    apply update_user_all; [exact H1|].
    intros u' a [= <-] Ha. rewrite Hl in Ha. injection Ha as <-.
    destruct H1 as [Hm _]. specialize (Hm u user Hl).
    unfold within_cap in *. simpl. lia.
  - destruct (get_or_create_user t None d) as [user d1]. cbn [fst snd] in H1 |- *.
    destruct (_ >? _); exact H1.
Qed.

Lemma coin_exchange_within_cap t uid usd d :
  all_accounts within_cap d -> all_accounts within_cap (snd (coin_exchange t uid usd d)).
Proof.
  intros H. unfold coin_exchange.
  destruct (to_int (mul usd (of_int COINS_PER_DOLLAR))) as [x|c] eqn:Hc; [exact H|].
  destruct (le_int usd 0 || gt_int usd 100) eqn:Hv; [exact H|].
  apply orb_false_iff in Hv as [Hpos _].
  pose proof (coins_required_nonneg usd c Hpos Hc) as Hc0.
  destruct (get_or_create_user_all within_cap t uid d within_cap_fresh H) as [H1 _].
  assert (forall u, uid = Some u ->
            users (snd (get_or_create_user t uid d)) !! u
            = Some (fst (get_or_create_user t uid d))) as Hl.
  { intros u ->. apply get_or_create_user_lookup. }
  destruct (get_or_create_user t uid d) as [user d1]. cbn [fst snd] in H1, Hl |- *.
  destruct (c >? _); [exact H1|].
  destruct (monthly_coin_redeemed user + c >? MAX_MONTHLY_COINS) eqn:Hcap;
    [exact H1|]. cbn [fst snd].
  apply (all_accounts_same_users _
           (update_user uid (add_redeemed c) d1)); [reflexivity..|].
  apply update_user_all; [exact H1|].
  intros u a -> Ha. rewrite (Hl u eq_refl) in Ha. injection Ha as <-.
  destruct H1 as [Hm _]. specialize (Hm u user (Hl u eq_refl)).
  unfold within_cap in *. simpl. lia.
Qed.

Lemma coin_status_within_cap t uid d :
  all_accounts within_cap d -> all_accounts within_cap (snd (coin_status t uid d)).
Proof.
  intros H. unfold coin_status. destruct (user_id_missing uid); [exact H|].
  destruct (get_or_create_user_all within_cap t uid d within_cap_fresh H) as [H1 _].
  destruct (get_or_create_user t uid d) as [user d1]. exact H1.
Qed.

Lemma reset_monthly_all P t d :
  (forall today, P (fresh_account today)) ->
  all_accounts P (snd (reset_monthly t d)).
Proof.
  intros Hfresh. split; simpl.
  - intros k x. rewrite lookup_fmap.
    destruct (users d !! k); simpl; [|discriminate]. intros [= <-]. apply Hfresh.
  - apply Forall_fmap. apply Forall_forall. intros a _. apply Hfresh.
Qed.

Lemma coin_redeem_cap_exceeded t uid requested_coins d :
  user_id_missing uid = false -> 0 < requested_coins ->
  MAX_MONTHLY_COINS
    < monthly_coin_redeemed (fst (get_or_create_user t uid d)) + requested_coins ->
  coin_redeem t uid requested_coins d
  = (Err CapExceeded, snd (get_or_create_user t uid d)).
Proof.
  intros Hu Hpos Hcap. unfold coin_redeem. rewrite Hu.
  apply Z.leb_gt in Hpos. rewrite Hpos. cbn [orb].
  destruct (get_or_create_user t uid d) as [user d1]. cbn [fst snd] in *.
  apply Z.gtb_lt in Hcap. rewrite Hcap. reflexivity.
Qed.

Lemma coin_exchange_insufficient t uid usd c d :
  to_int (mul usd (of_int COINS_PER_DOLLAR)) = inr c ->
  le_int usd 0 || gt_int usd 100 = false ->
  monthly_coin_earned (fst (get_or_create_user t uid d))
    - monthly_coin_redeemed (fst (get_or_create_user t uid d)) < c ->
  coin_exchange t uid usd d
  = (Err InsufficientBalance, snd (get_or_create_user t uid d)).
Proof.
  intros Hc Hv Hbal. unfold coin_exchange. rewrite Hc, Hv.
  destruct (get_or_create_user t uid d) as [user d1]. cbn [fst snd] in *.
  apply Z.gtb_lt in Hbal. rewrite Hbal. reflexivity.
Qed.

Lemma coin_exchange_cap_exceeded t uid usd c d :
  to_int (mul usd (of_int COINS_PER_DOLLAR)) = inr c ->
  le_int usd 0 || gt_int usd 100 = false ->
  c <= monthly_coin_earned (fst (get_or_create_user t uid d))
       - monthly_coin_redeemed (fst (get_or_create_user t uid d)) ->
  MAX_MONTHLY_COINS
    < monthly_coin_redeemed (fst (get_or_create_user t uid d)) + c ->
  coin_exchange t uid usd d
  = (Err CapExceeded, snd (get_or_create_user t uid d)).
Proof.
  intros Hc Hv Hbal Hcap. unfold coin_exchange. rewrite Hc, Hv.
  destruct (get_or_create_user t uid d) as [user d1]. cbn [fst snd] in *.
  assert ((c >? monthly_coin_earned user - monthly_coin_redeemed user) = false) as ->.
  { rewrite Z.gtb_ltb. apply Z.ltb_ge. exact Hbal. }
  apply Z.gtb_lt in Hcap. rewrite Hcap. reflexivity.
Qed.

Lemma reset_monthly_zero t d :
  all_accounts (fun a => monthly_coin_redeemed a = 0) (snd (reset_monthly t d)).
Proof. apply reset_monthly_all. reflexivity. Qed.

(** ** What a successful exchange did *)

Lemma coin_exchange_ok t uid usd d r d' :
  coin_exchange t uid usd d = (Ok r, d') ->
  exists c,
    to_int (mul usd (of_int COINS_PER_DOLLAR)) = inr c /\
    le_int usd 0 = false /\ gt_int usd 100 = false /\
    c <= monthly_coin_earned (fst (get_or_create_user t uid d))
         - monthly_coin_redeemed (fst (get_or_create_user t uid d)) /\
    monthly_coin_redeemed (fst (get_or_create_user t uid d)) + c
      <= MAX_MONTHLY_COINS /\
    r = Exchanged ("$" +:+ format_2f usd) "24 hours" /\
    d' = exchanged t uid usd c (snd (get_or_create_user t uid d)).
Proof.
  unfold coin_exchange.
  destruct (to_int (mul usd (of_int COINS_PER_DOLLAR))) as [x|c]; [discriminate|].
  destruct (le_int usd 0 || gt_int usd 100) eqn:Hv; [discriminate|].
  apply orb_false_iff in Hv as [Hlo Hhi].
  destruct (get_or_create_user t uid d) as [user d1]. cbn [fst snd].
  destruct (c >? _) eqn:Hbal; [discriminate|].
  destruct (_ + c >? MAX_MONTHLY_COINS) eqn:Hcap; [discriminate|].
  intros [= <- <-]. exists c.
  rewrite Z.gtb_ltb in Hbal, Hcap. apply Z.ltb_ge in Hbal, Hcap.
  repeat split; auto.
Qed.

Lemma exchanged_lookup t uid usd c d1 u :
  users (exchanged t uid usd c d1) !! u
  = if decide (uid = Some u) then add_redeemed c <$> users d1 !! u
    else users d1 !! u.
Proof. unfold exchanged. cbn [log_redemption_csv users insert_redemption set_rows].
  apply update_user_lookup. Qed.

Lemma exchanged_rows t uid usd c d1 :
  pending_redemptions (exchanged t uid usd c d1)
  = pending_redemptions d1 ++
      [{| id := next_id (pending_redemptions d1); user_id := uid;
          coins_redeemed := c; usd_value := usd;
          requested_at := utc_datetime t; status := pending |}].
Proof.
  unfold exchanged.
  cbn [log_redemption_csv pending_redemptions insert_redemption set_rows].
  rewrite update_user_rows. reflexivity.
Qed.

(** The store an exchange leaves: the one it found, the one
    [get_or_create_user] returned, or the one of the last branch. *)
Lemma coin_exchange_store t uid usd d :
  snd (coin_exchange t uid usd d) = d \/
  snd (coin_exchange t uid usd d) = snd (get_or_create_user t uid d) \/
  exists c,
    snd (coin_exchange t uid usd d)
    = exchanged t uid usd c (snd (get_or_create_user t uid d)) /\
    c <= monthly_coin_earned (fst (get_or_create_user t uid d))
         - monthly_coin_redeemed (fst (get_or_create_user t uid d)).
Proof.
  unfold coin_exchange.
  destruct (to_int _) as [x|c]; [left; reflexivity|].
  destruct (_ || _); [left; reflexivity|].
  destruct (get_or_create_user t uid d) as [user d1]. cbn [fst snd].
  destruct (c >? _) eqn:Hbal; [right; left; reflexivity|].
  destruct (monthly_coin_redeemed user + c >? MAX_MONTHLY_COINS);
    [right; left; reflexivity|].
  right. right. exists c. split; [reflexivity|].
  rewrite Z.gtb_ltb in Hbal. apply Z.ltb_ge in Hbal. exact Hbal.
Qed.

(** ** Redeemed against earned, handler by handler *)

Lemma covered_fresh today : covered (fresh_account today).
Proof. unfold covered. simpl. lia. Qed.

Lemma get_or_create_user_covered t uid u d :
  covered_at u d -> covered_at u (snd (get_or_create_user t uid d)).
Proof.
  intros H. unfold get_or_create_user.
  destruct (select_user uid d); [exact H|]. cbn [snd].
  destruct uid as [v|]; [|exact H]. intros a. cbn [insert_user users].
  rewrite lookup_insert. case_decide; [|apply H].
  intros [= <-]. apply covered_fresh.
Qed.

(** A successful exchange leaves the account it charged covered, whatever
    the account looked like before. *)
Lemma coin_exchange_ok_covered t u usd d r d' :
  coin_exchange t (Some u) usd d = (Ok r, d') -> covered_at u d'.
Proof.
  intros H. apply coin_exchange_ok in H
    as (c & _ & _ & _ & Hbal & _ & _ & ->).
  intros a. rewrite exchanged_lookup. rewrite decide_True by reflexivity.
  rewrite get_or_create_user_lookup. cbn [fmap option_fmap option_map].
  intros [= <-]. unfold covered. simpl. lia.
Qed.

Lemma coin_exchange_covered t uid usd u d :
  covered_at u d -> covered_at u (snd (coin_exchange t uid usd d)).
Proof.
  intros H.
  destruct (coin_exchange_store t uid usd d) as [-> | [-> | (c & -> & Hbal)]].
  - exact H.
  - apply get_or_create_user_covered, H.
  - intros a. rewrite exchanged_lookup. case_decide as Hu.
    + subst uid. rewrite get_or_create_user_lookup in *.
      cbn [fmap option_fmap option_map]. intros [= <-].
      unfold covered. simpl. lia.
    + apply get_or_create_user_covered, H.
Qed.

Lemma coin_earn_covered t uid coins u d :
  covered_at u d -> covered_at u (snd (coin_earn t uid coins d)).
Proof.
  intros H. unfold coin_earn.
  destruct (user_id_missing uid || (coins <=? 0)) eqn:Hv; [exact H|].
  apply orb_false_iff in Hv as [_ Hpos]. apply Z.leb_gt in Hpos.
  cbn [snd]. intros a. rewrite update_user_lookup.
  pose proof (get_or_create_user_covered t uid u d H) as H1.
  case_decide; [|apply H1].
  destruct (users (snd (get_or_create_user t uid d)) !! u) as [a0|] eqn:E;
    [|discriminate].
  cbn [fmap option_fmap option_map]. intros [= <-].
  specialize (H1 a0 E). unfold covered in *. simpl. lia.
Qed.

Lemma coin_redeem_covered t uid coins u d :
  uid <> Some u ->
  covered_at u d -> covered_at u (snd (coin_redeem t uid coins d)).
Proof.
  intros Hne H. unfold coin_redeem.
  destruct (user_id_missing uid || (coins <=? 0)); [exact H|].
  pose proof (get_or_create_user_covered t uid u d H) as H1.
  destruct (get_or_create_user t uid d) as [user d1]. cbn [snd] in H1.
  destruct (_ >? _); [exact H1|]. cbn [snd].
  intros a. rewrite update_user_lookup, decide_False by exact Hne. apply H1.
Qed.

(** ** Status transitions, row by row *)

Lemma mark_redeem_paid_rows rid d :
  rid <> 0 ->
  mark_redeem_paid (Some rid) d
  = (Ok (MarkedPaid rid), set_rows (mark_row rid <$> pending_redemptions d) d).
Proof.
  intros Hne. unfold mark_redeem_paid, id_missing.
  apply Z.eqb_neq in Hne. rewrite Hne. reflexivity.
Qed.

Lemma set_rows_same d : set_rows (pending_redemptions d) d = d.
Proof. destruct d. reflexivity. Qed.

Lemma mark_row_idemp rid r : mark_row rid (mark_row rid r) = mark_row rid r.
Proof.
  unfold mark_row. destruct (id r =? rid) eqn:E; cbn [id set_status]; rewrite E;
    reflexivity.
Qed.

Lemma mark_row_other rid r : id r <> rid -> mark_row rid r = r.
Proof. intros H. unfold mark_row. apply Z.eqb_neq in H. rewrite H. reflexivity. Qed.

(** Paid stays paid under both transitions; expired stays expired under
    the sweep. *)
Lemma mark_row_paid rid r : status r = paid -> status (mark_row rid r) = paid.
Proof. unfold mark_row. destruct (id r =? rid); auto. Qed.

Lemma expire_row_settled cutoff r :
  status r <> pending -> expire_row cutoff r = r.
Proof.
  intros H. unfold expire_row. rewrite bool_decide_eq_false_2 by exact H.
  reflexivity.
Qed.

(** The transition [mark_redeem_paid] makes does not look at the status. *)
Lemma mark_row_any rid r : id r = rid -> status (mark_row rid r) = paid.
Proof. intros H. unfold mark_row. apply Z.eqb_eq in H. rewrite H. reflexivity. Qed.

(** ** Runs *)

Section Runs.

Variable str_float : float -> string.

Lemma handle_within_cap q d :
  all_accounts within_cap d -> all_accounts within_cap (snd (handle str_float q d)).
Proof.
  intros H. destruct q; simpl.
  - apply coin_earn_within_cap, H.
  - apply coin_redeem_within_cap, H.
  - apply coin_exchange_within_cap, H.
  - apply coin_status_within_cap, H.
  - exact H.
  - unfold mark_redeem_paid. destruct (id_missing rid); exact H.
  - exact H.
  - apply reset_monthly_all, within_cap_fresh.
  - exact H.
Qed.

Lemma run_invariant (I : db -> Prop) qs :
  (forall q d, In q qs -> I d -> I (snd (handle str_float q d))) ->
  forall d, I d -> I (run str_float qs d).
Proof.
  unfold run. induction qs as [|q qs IH]; intros Hstep d Hd; simpl; [exact Hd|].
  apply IH.
  - intros q' d' Hin. apply Hstep. right. exact Hin.
  - apply Hstep; [left; reflexivity | exact Hd].
Qed.

(** C1.  After any sequence of requests served from the empty store, every
    row of [users], keyed or not, has
    [0 <= monthly_coin_redeemed <= MAX_MONTHLY_COINS].  The steps are the
    lemmas above: a new row starts at zero ([within_cap_fresh]), Redeem and
    Exchange add coins only after the cap test
    ([coin_redeem_within_cap], [coin_exchange_within_cap]; the refusals are
    [coin_redeem_cap_exceeded] and [coin_exchange_cap_exceeded]), and the
    monthly reset writes zero ([reset_monthly_zero]). *)
Theorem monthly_cap_invariant qs :
  all_accounts within_cap (run str_float qs init_db).
Proof.
  apply run_invariant; [|apply all_accounts_init].
  intros q d _. apply handle_within_cap.
Qed.

Lemma handle_covered u q d :
  ~ redeems u q -> covered_at u d -> covered_at u (snd (handle str_float q d)).
Proof.
  intros Hq H. destruct q; cbn [handle].
  - apply coin_earn_covered, H.
  - apply coin_redeem_covered; [exact Hq | exact H].
  - apply coin_exchange_covered, H.
  - unfold coin_status. destruct (user_id_missing uid); [exact H|].
    pose proof (get_or_create_user_covered t uid u d H) as H1.
    destruct (get_or_create_user t uid d). exact H1.
  - exact H.
  - unfold mark_redeem_paid. destruct (id_missing rid); exact H.
  - exact H.
  - intros a. cbn. rewrite lookup_fmap.
    destruct (users d !! u); [|discriminate].
    intros [= <-]. apply covered_fresh.
  - exact H.
Qed.

(** C2.  Take any sequence of requests served from the empty store and any
    user id [u] that no Redeem request of the sequence names.  Then the
    account of [u] has [monthly_coin_redeemed <= monthly_coin_earned]: the
    only requests that raise its redeemed counter are successful
    exchanges, and each of them has passed
    [coins_required <= earned - redeemed] ([coin_exchange_ok_covered]);
    an exchange that asks for more is turned down
    ([coin_exchange_insufficient]). *)
Theorem exchange_keeps_redeemed_below_earned qs u a :
  Forall (fun q => ~ redeems u q) qs ->
  users (run str_float qs init_db) !! u = Some a ->
  monthly_coin_redeemed a <= monthly_coin_earned a.
Proof.
  intros Hqs. revert a. change (covered_at u (run str_float qs init_db)).
  apply (run_invariant (covered_at u)).
  - intros q d Hin. apply handle_covered.
    rewrite Forall_forall in Hqs. apply Hqs. apply list_elem_of_In. exact Hin.
  - intros a. cbn. rewrite lookup_empty. discriminate.
Qed.

(** The rows without a key are never matched by an [UPDATE ... WHERE]:
    both their counters stay at zero. *)
Lemma null_accounts_untouched qs :
  Forall (fun a => monthly_coin_earned a = 0 /\ monthly_coin_redeemed a = 0)
         (users_null (run str_float qs init_db)).
Proof.
  apply (run_invariant
           (fun d => Forall (fun a => monthly_coin_earned a = 0 /\
                                      monthly_coin_redeemed a = 0)
                            (users_null d))); [|constructor].
  intros q d _ H.
  assert (forall t uid,
            Forall (fun a => monthly_coin_earned a = 0 /\
                             monthly_coin_redeemed a = 0)
                   (users_null (snd (get_or_create_user t uid d)))) as Hgoc.
  { intros t uid. unfold get_or_create_user.
    destruct (select_user uid d); [exact H|]. destruct uid; [exact H|].
    cbn. apply Forall_app. split; [exact H|]. repeat constructor. }
  destruct q; cbn [handle].
  - unfold coin_earn. destruct (_ || _); [exact H|]. cbn [snd].
    rewrite update_user_null. apply Hgoc.
  - unfold coin_redeem. destruct (_ || _); [exact H|].
    specialize (Hgoc t uid).
    destruct (get_or_create_user t uid d) as [user d1]. cbn [snd] in Hgoc.
    destruct (_ >? _); [exact Hgoc|]. cbn [snd].
    rewrite update_user_null. exact Hgoc.
  - destruct (coin_exchange_store t uid usd d) as [-> | [-> | (c & -> & _)]].
    + exact H.
    + apply Hgoc.
    + unfold exchanged.
      cbn [log_redemption_csv insert_redemption set_rows users_null].
      rewrite update_user_null. apply Hgoc.
  - unfold coin_status. destruct (user_id_missing uid); [exact H|].
    specialize (Hgoc t uid). destruct (get_or_create_user t uid d). exact Hgoc.
  - exact H.
  - unfold mark_redeem_paid. destruct (id_missing rid); exact H.
  - exact H.
  - cbn. apply Forall_fmap, Forall_forall. intros a _. split; reflexivity.
  - exact H.
Qed.

(** The rows of [pending_redemptions] after a request: the old rows, each
    possibly with a new status, and possibly one more row at the end. *)
Lemma handle_rows q d :
  exists f extra,
    pending_redemptions (snd (handle str_float q d))
    = (f <$> pending_redemptions d) ++ extra /\
    (forall r, f r = r \/
       (exists rid, q = MarkPaid (Some rid) /\ f r = mark_row rid r) \/
       (exists cutoff, q = ExpireOld cutoff /\ f r = expire_row cutoff r)).
Proof.
  assert (forall d', pending_redemptions d' = pending_redemptions d ->
            exists f extra,
              pending_redemptions d' = (f <$> pending_redemptions d) ++ extra /\
              (forall r, f r = r \/
                 (exists rid, q = MarkPaid (Some rid) /\ f r = mark_row rid r) \/
                 (exists cutoff, q = ExpireOld cutoff /\ f r = expire_row cutoff r)))
    as Hsame.
  { intros d' ->. exists (fun r => r), [].
    rewrite list_fmap_id, app_nil_r. auto. }
  destruct q; cbn [handle].
  - apply Hsame. unfold coin_earn. destruct (_ || _); [reflexivity|]. cbn [snd].
    rewrite update_user_rows. apply get_or_create_user_rows.
  - apply Hsame. unfold coin_redeem. destruct (_ || _); [reflexivity|].
    pose proof (get_or_create_user_rows t uid d) as Hr.
    destruct (get_or_create_user t uid d) as [user d1]. cbn [snd] in Hr.
    destruct (_ >? _); [exact Hr|]. cbn [snd]. rewrite update_user_rows. exact Hr.
  - destruct (coin_exchange_store t uid usd d) as [-> | [-> | (c & -> & _)]].
    + apply Hsame. reflexivity.
    + apply Hsame, get_or_create_user_rows.
    + exists (fun r => r). eexists. split; [|auto].
      rewrite exchanged_rows, get_or_create_user_rows, list_fmap_id. reflexivity.
  - apply Hsame. unfold coin_status. destruct (user_id_missing uid); [reflexivity|].
    pose proof (get_or_create_user_rows t uid d) as Hr.
    destruct (get_or_create_user t uid d). exact Hr.
  - apply Hsame. reflexivity.
  - destruct rid as [rid|]; [destruct (decide (rid = 0)) as [->|Hne]|].
    + apply Hsame. reflexivity.
    + exists (mark_row rid), []. rewrite mark_redeem_paid_rows by exact Hne.
      split; [cbn; rewrite app_nil_r; reflexivity|].
      intros r. right. left. eauto.
    + apply Hsame. reflexivity.
  - exists (expire_row expired_time), [].
    split; [cbn; rewrite app_nil_r; reflexivity|].
    intros r. right. right. eauto.
  - apply Hsame. reflexivity.
  - apply Hsame. reflexivity.
Qed.

(** Paid is terminal: no request takes a row out of [paid]. *)
Lemma paid_is_terminal q d i r :
  pending_redemptions d !! i = Some r -> status r = paid ->
  exists r', pending_redemptions (snd (handle str_float q d)) !! i = Some r' /\
             id r' = id r /\ status r' = paid.
Proof.
  intros Hi Hpaid. destruct (handle_rows q d) as (f & extra & -> & Hf).
  exists (f r). split.
  { rewrite lookup_app_l by (rewrite length_fmap; eapply lookup_lt_Some, Hi).
    rewrite list_lookup_fmap, Hi. reflexivity. }
  destruct (Hf r) as [-> | [(rid & _ & ->) | (cutoff & _ & ->)]].
  - auto.
  - split; [|apply mark_row_paid, Hpaid]. unfold mark_row. destruct (_ =? _); reflexivity.
  - rewrite expire_row_settled; [auto|]. rewrite Hpaid. discriminate.
Qed.

End Runs.

Lemma exchange_keeps_redeemed_below_earned_witness :
  Forall (fun q => ~ redeems "ann" q)
         [Earn t0 (Some "ann") 10000000; Exchange t0 (Some "ann") (of_int 5)] /\
  users (run repr_whole
           [Earn t0 (Some "ann") 10000000; Exchange t0 (Some "ann") (of_int 5)]
           init_db) !! "ann"
  = Some {| monthly_coin_earned := 10000000; monthly_coin_redeemed := 5000000;
            last_reset := "2024-01-01" |} /\
  5000000 <= 10000000.
Proof.
  assert (Forall (fun q => ~ redeems "ann" q)
            [Earn t0 (Some "ann") 10000000; Exchange t0 (Some "ann") (of_int 5)])
    as Hqs by (repeat constructor; simpl; tauto).
  assert (users (run repr_whole
             [Earn t0 (Some "ann") 10000000; Exchange t0 (Some "ann") (of_int 5)]
             init_db) !! "ann"
          = Some {| monthly_coin_earned := 10000000;
                    monthly_coin_redeemed := 5000000;
                    last_reset := "2024-01-01" |})
    as Hrow by (vm_compute; reflexivity).
  split; [exact Hqs|]. split; [exact Hrow|].
  exact (exchange_keeps_redeemed_below_earned repr_whole _ "ann" _ Hqs Hrow).
Defined.

(** ** Redeem looks at the cap only *)

(** The credit is a number of cents: 4999 coins, half a cent short of
    one, are answered with "$0.00", which is not 4999 / 1000000 dollars. *)
Lemma redeem_credit_is_rounded :
  user_id_missing (Some "ann") = false /\ 0 < 4999 /\
  redeemed_of "ann" funded + 4999 <= MAX_MONTHLY_COINS /\
  fst (coin_redeem t0 (Some "ann") 4999 funded)
  = Ok (Credited ("$" +:+ fixed2 false 0)) /\
  fixed2 false 0 = "0.00" /\
  ~ (inject_Z 0 / 100 == 4999 # 1000000)%Q.
Proof.
  split; [reflexivity|]. split; [lia|]. split; [vm_compute; discriminate|].
  split; [vm_compute; reflexivity|]. split; [vm_compute; reflexivity|].
  vm_compute. discriminate.
Qed.

(** C3, with the credit as the handler prints it.  Take a request that
    carries a user id and a positive [requested_coins], and a stored
    redeemed counter (0 when the user has no row yet) that is not negative.
    If the counter plus [requested_coins] stays within [MAX_MONTHLY_COINS],
    Redeem succeeds, whatever was earned: the row of the user is the
    stored one, or a new one, with [requested_coins] added to
    [monthly_coin_redeemed] and nothing else changed; the other rows and
    the table of requests are as they were.  The answer is "$" and a
    number of cents printed with two decimals, the cents nearest to
    [requested_coins / 10000], that is [requested_coins / COINS_PER_DOLLAR]
    dollars to the nearest cent.  If the sum is above the cap, the answer
    is [CapExceeded] and no counter moves. *)
Theorem redeem_checks_cap_only t u requested_coins d :
  user_id_missing (Some u) = false ->
  0 < requested_coins ->
  0 <= redeemed_of u d ->
  (redeemed_of u d + requested_coins <= MAX_MONTHLY_COINS ->
   exists cents,
     fst (coin_redeem t (Some u) requested_coins d)
     = Ok (Credited ("$" +:+ fixed2 false cents)) /\
     -5000 <= 10000 * cents - requested_coins <= 5000 /\
     users (snd (coin_redeem t (Some u) requested_coins d)) !! u
     = Some {| monthly_coin_earned :=
                 default 0 (monthly_coin_earned <$> users d !! u);
               monthly_coin_redeemed := redeemed_of u d + requested_coins;
               last_reset := default (utc_date t) (last_reset <$> users d !! u) |} /\
     (forall v, v <> u ->
        users (snd (coin_redeem t (Some u) requested_coins d)) !! v
        = users d !! v) /\
     pending_redemptions (snd (coin_redeem t (Some u) requested_coins d))
     = pending_redemptions d) /\
  (MAX_MONTHLY_COINS < redeemed_of u d + requested_coins ->
   fst (coin_redeem t (Some u) requested_coins d) = Err CapExceeded /\
   redeemed_of u (snd (coin_redeem t (Some u) requested_coins d))
   = redeemed_of u d /\
   pending_redemptions (snd (coin_redeem t (Some u) requested_coins d))
   = pending_redemptions d).
Proof.
  intros Hu Hpos Hred.
  assert (fst (get_or_create_user t (Some u) d)
          = {| monthly_coin_earned :=
                 default 0 (monthly_coin_earned <$> users d !! u);
               monthly_coin_redeemed := redeemed_of u d;
               last_reset := default (utc_date t) (last_reset <$> users d !! u) |})
    as Huser.
  { unfold redeemed_of. destruct (users d !! u) as [a|] eqn:E.
    - rewrite (get_or_create_user_found t u a d E). destruct a; reflexivity.
    - rewrite (get_or_create_user_new t u d E). reflexivity. }
  pose proof (get_or_create_user_lookup t u d) as Hl.
  pose proof (get_or_create_user_rows t (Some u) d) as Hrows.
  split.
  - intros Hcap.
    destruct (credited_cents requested_coins) as (cents & Hfmt & Hcents); [lia|].
    exists cents. unfold coin_redeem.
    assert (user_id_missing (Some u) || (requested_coins <=? 0) = false) as ->.
    { apply orb_false_iff. split; [exact Hu | apply Z.leb_gt; exact Hpos]. }
    assert (forall v, v <> u ->
              users (snd (get_or_create_user t (Some u) d)) !! v = users d !! v)
      as Hother.
    { intros v Hv. apply get_or_create_user_other. congruence. }
    destruct (get_or_create_user t (Some u) d) as [user d1]. cbn [fst snd] in *.
    subst user. cbn [monthly_coin_redeemed].
    assert ((redeemed_of u d + requested_coins >? MAX_MONTHLY_COINS) = false) as ->.
    { rewrite Z.gtb_ltb. apply Z.ltb_ge. exact Hcap. }
    cbn [fst snd]. rewrite Hfmt.
    split; [reflexivity|]. split; [exact Hcents|]. split; [|split].
    + rewrite update_user_lookup, decide_True by reflexivity.
      rewrite Hl. reflexivity.
    + intros v Hv. rewrite update_user_lookup, decide_False by congruence.
      apply Hother, Hv.
    + rewrite update_user_rows. exact Hrows.
  - intros Hcap.
    rewrite coin_redeem_cap_exceeded
      by (try assumption; rewrite Huser; exact Hcap).
    cbn [fst snd]. split; [reflexivity|]. split; [|exact Hrows].
    unfold redeemed_of at 1. rewrite Hl, Huser. reflexivity.
Qed.

(** Ann has earned ten million coins and five million of them are
    reserved: she redeems forty-five million more; one coin more than that
    is refused. *)
Lemma redeem_checks_cap_only_witness :
  user_id_missing (Some "ann") = false /\ 0 < 45000000 /\ 0 < 45000001 /\
  0 <= redeemed_of "ann" ann_store /\
  redeemed_of "ann" ann_store + 45000000 <= MAX_MONTHLY_COINS /\
  MAX_MONTHLY_COINS < redeemed_of "ann" ann_store + 45000001 /\
  users ann_store !! "ann"
  = Some {| monthly_coin_earned := 10000000; monthly_coin_redeemed := 5000000;
            last_reset := "2024-01-01" |} /\
  fst (coin_redeem t_late (Some "ann") 45000000 ann_store)
  = Ok (Credited "$45.00") /\
  users (snd (coin_redeem t_late (Some "ann") 45000000 ann_store)) !! "ann"
  = Some {| monthly_coin_earned := 10000000; monthly_coin_redeemed := 50000000;
            last_reset := "2024-01-01" |} /\
  fst (coin_redeem t_late (Some "ann") 45000001 ann_store) = Err CapExceeded.
Proof.
  assert (0 <= redeemed_of "ann" ann_store) as H0 by (vm_compute; discriminate).
  assert (redeemed_of "ann" ann_store + 45000000 <= MAX_MONTHLY_COINS) as Hcap
    by (vm_compute; discriminate).
  assert (MAX_MONTHLY_COINS < redeemed_of "ann" ann_store + 45000001) as Hover
    by (vm_compute; reflexivity).
  split; [reflexivity|]. split; [lia|]. split; [lia|]. split; [exact H0|].
  split; [exact Hcap|]. split; [exact Hover|].
  split; [vm_compute; reflexivity|].
  destruct (redeem_checks_cap_only t_late "ann" 45000000 ann_store
              eq_refl ltac:(lia) H0) as [Hin _].
  destruct (Hin Hcap) as (cents & _ & _ & Hrow & _).
  destruct (redeem_checks_cap_only t_late "ann" 45000001 ann_store
              eq_refl ltac:(lia) H0) as [_ Hout].
  destruct (Hout Hover) as (Herr & _).
  split; [vm_compute; reflexivity|].
  split; [rewrite Hrow; vm_compute; reflexivity | exact Herr].
Defined.

(** ** The coins an exchange reserves *)

(** The product is rounded to a double before [int()] cuts it.  For the
    double nearest to 0.29 the exact product is just below 290000 and its
    floor is 289999, but 290000 coins are reserved; for the double nearest
    to 2.01, 2009999 coins are reserved, one less than the 2010000 of the
    decimal amount. *)
Lemma exchange_rounds_before_floor :
  is_double (cents 29) /\ usd_in_range (cents 29) /\
  Qfloor (to_Q (cents 29) * inject_Z COINS_PER_DOLLAR) = 289999 /\
  to_int (mul (cents 201) (of_int COINS_PER_DOLLAR)) = inr 2009999 /\
  Qfloor ((201 # 100) * inject_Z COINS_PER_DOLLAR) = 2010000 /\
  fst (coin_exchange t0 (Some "ann") (cents 29) funded)
  = Ok (Exchanged "$0.29" "24 hours") /\
  coins_redeemed <$>
    pending_redemptions (snd (coin_exchange t0 (Some "ann") (cents 29) funded))
  = [290000] /\
  redeemed_of "ann" (snd (coin_exchange t0 (Some "ann") (cents 29) funded))
  = redeemed_of "ann" funded + 290000.
Proof. repeat split; vm_compute; reflexivity. Qed.

(** C5, with the product as the handler computes it.  When Exchange
    succeeds on a double, the amount lies in (0, 100] and [int()] returned
    [coins_required], which is the floor of the exact product
    [usd_requested * COINS_PER_DOLLAR] or that floor plus one; the redeemed
    counter of a present user is the stored one plus [coins_required] (a
    request without user id can only succeed with [coins_required = 0]),
    and the table of requests grew by one pending row whose
    [coins_redeemed] is [coins_required]. *)
Theorem exchange_reserves_floor_or_one_more t uid usd d r d' :
  is_double usd ->
  coin_exchange t uid usd d = (Ok r, d') ->
  exists coins_required,
    usd_in_range usd /\
    to_int (mul usd (of_int COINS_PER_DOLLAR)) = inr coins_required /\
    Qfloor (to_Q usd * inject_Z COINS_PER_DOLLAR) <= coins_required
      <= Qfloor (to_Q usd * inject_Z COINS_PER_DOLLAR) + 1 /\
    (forall u, uid = Some u ->
       is_Some (users d' !! u) /\
       redeemed_of u d' = redeemed_of u d + coins_required) /\
    (uid = None -> coins_required = 0) /\
    pending_redemptions d' =
      pending_redemptions d ++
        [{| id := next_id (pending_redemptions d); user_id := uid;
            coins_redeemed := coins_required; usd_value := usd;
            requested_at := utc_datetime t; status := pending |}].
Proof.
  intros Hd H. apply coin_exchange_ok in H
    as (c & Hc & Hlo & Hhi & Hbal & Hcap & _ & ->).
  assert (usd_in_range usd) as Hr by (eapply checks_pass_in_range; eassumption).
  destruct (coins_required_bracket usd Hd Hr) as (c' & Hc' & Hfloor).
  assert (c' = c) as -> by congruence.
  exists c. split; [exact Hr|]. split; [exact Hc|]. split; [exact Hfloor|].
  split; [|split].
  - intros u ->. unfold redeemed_of.
    rewrite exchanged_lookup, decide_True by reflexivity.
    rewrite get_or_create_user_lookup. cbn [fmap option_fmap option_map default].
    split; [eexists; reflexivity|]. cbn [monthly_coin_redeemed add_redeemed].
    destruct (users d !! u) as [a|] eqn:E.
    + rewrite (get_or_create_user_found t u a d E). reflexivity.
    + rewrite (get_or_create_user_new t u d E). reflexivity.
  - intros ->. rewrite get_or_create_user_null in Hbal. cbn in Hbal.
    pose proof (coins_required_nonneg usd c Hlo Hc). lia.
  - rewrite exchanged_rows, get_or_create_user_rows. reflexivity.
Qed.

Lemma exchange_reserves_floor_or_one_more_witness :
  is_double (cents 29) /\
  coin_exchange t0 (Some "ann") (cents 29) funded
  = (Ok (Exchanged "$0.29" "24 hours"),
     snd (coin_exchange t0 (Some "ann") (cents 29) funded)) /\
  exists coins_required,
    to_int (mul (cents 29) (of_int COINS_PER_DOLLAR)) = inr coins_required /\
    289999 <= coins_required <= 289999 + 1 /\
    redeemed_of "ann" (snd (coin_exchange t0 (Some "ann") (cents 29) funded))
    = redeemed_of "ann" funded + coins_required /\
    coins_redeemed <$>
      pending_redemptions (snd (coin_exchange t0 (Some "ann") (cents 29) funded))
    = [coins_required].
Proof.
  assert (is_double (cents 29)) as Hd by (vm_compute; reflexivity).
  assert (coin_exchange t0 (Some "ann") (cents 29) funded
          = (Ok (Exchanged "$0.29" "24 hours"),
             snd (coin_exchange t0 (Some "ann") (cents 29) funded)))
    as Hok by (vm_compute; reflexivity).
  split; [exact Hd|]. split; [exact Hok|].
  destruct (exchange_reserves_floor_or_one_more _ _ _ _ _ _ Hd Hok)
    as (c & _ & Hc & Hfloor & Huser & _ & Hrows).
  exists c. split; [exact Hc|]. split; [exact Hfloor|].
  split; [apply (Huser "ann" eq_refl)|].
  rewrite Hrows. reflexivity.
Defined.

(** ** A request without a user id *)




(** ** Amounts outside (0, 100] *)

Lemma coin_exchange_out_of_range t uid usd d :
  le_int usd 0 || gt_int usd 100 = true ->
  snd (coin_exchange t uid usd d) = d /\
  (fst (coin_exchange t uid usd d) = Err InvalidRequest \/
   exists x, to_int (mul usd (of_int COINS_PER_DOLLAR)) = inl x /\
             fst (coin_exchange t uid usd d) = Raise x).
Proof.
  intros H. unfold coin_exchange.
  destruct (to_int _) as [x|c].
  - split; [reflexivity|]. right. exists x. split; reflexivity.
  - rewrite H. split; [reflexivity | left; reflexivity].
Qed.

(** C6.  The amount 2^1010 is a double above 100, and so is +infinity;
    on either, Exchange does not answer [InvalidRequest]: [int()] of the
    overflowed product raises [OverflowError] before the bounds are
    tested.  The store is untouched. *)
Theorem exchange_overflow_escapes_validation t uid d :
  is_double huge /\ gt_int huge 100 = true /\
  coin_exchange t uid huge d = (Raise OverflowError, d) /\
  gt_int (S754_infinity false) 100 = true /\
  coin_exchange t uid (S754_infinity false) d = (Raise OverflowError, d).
Proof. repeat split; vm_compute; reflexivity. Qed.

(** ** Amounts below one coin *)

(** C8.  A tenth of a coin is an amount in (0, 100]; asked by a user who
    has nothing, the exchange succeeds and stores a request whose
    [coins_redeemed] is 0. *)
Theorem exchange_records_zero_coins :
  is_double tenth_of_a_coin /\ usd_in_range tenth_of_a_coin /\
  fst (coin_exchange t0 (Some "ann") tenth_of_a_coin init_db)
  = Ok (Exchanged "$0.00" "24 hours") /\
  coins_redeemed <$>
    pending_redemptions (snd (coin_exchange t0 (Some "ann") tenth_of_a_coin init_db))
  = [0].
Proof. repeat split; vm_compute; reflexivity. Qed.

(** ** Paid and expired *)

(** Expired is not: marking paid overwrites whatever status the row has. *)
Lemma mark_paid_ignores_status rid d i r :
  rid <> 0 -> pending_redemptions d !! i = Some r -> id r = rid ->
  exists r', pending_redemptions (snd (mark_redeem_paid (Some rid) d)) !! i = Some r' /\
             id r' = rid /\ status r' = paid.
Proof.
  intros Hne Hi Hid. rewrite mark_redeem_paid_rows by exact Hne. cbn [snd].
  exists (mark_row rid r). split.
  { cbn. rewrite list_lookup_fmap, Hi. reflexivity. }
  split; [|apply mark_row_any, Hid].
  unfold mark_row. destruct (_ =? _); exact Hid.
Qed.

(** C4.  After Ann's request has been swept its status is [expired];
    marking its id paid then turns it into [paid]: a transition out of
    [expired]. *)
Theorem mark_paid_revives_expired sf :
  status <$> pending_redemptions (run sf settle_expired init_db) = [expired] /\
  status <$> pending_redemptions
               (run sf (settle_expired ++ [MarkPaid (Some 1)]) init_db) = [paid].
Proof. split; vm_compute; reflexivity. Qed.

(** ** Marking paid: unknown ids and repeated calls *)

Lemma set_status_same r : set_status (status r) r = r.
Proof. destruct r; reflexivity. Qed.

Lemma mark_row_settled rid r :
  (id r = rid -> status r = paid) -> mark_row rid r = r.
Proof.
  intros H. unfold mark_row. destruct (id r =? rid) eqn:E; [|reflexivity].
  apply Z.eqb_eq in E. rewrite <- (H E). apply set_status_same.
Qed.

(** Ann's request has id 1 and no request has id 0; marking id 0 paid is
    answered with an error. *)
Lemma mark_paid_zero_id_rejected :
  pending_redemptions ann_store <> [] /\
  Forall (fun r => id r <> 0) (pending_redemptions ann_store) /\
  mark_redeem_paid (Some 0) ann_store = (Err InvalidRequest, ann_store).
Proof.
  split; [vm_compute; discriminate|].
  split; [vm_compute; repeat constructor; discriminate | reflexivity].
Qed.

(** C9, for the ids the handler takes as present and SQLite can hold.
    For [rid <> 0] within [sqlite_integer]: if no request has id [rid],
    marking it paid answers success and leaves the store as it was; so
    does marking a request that is paid already; and in any store, the
    first call answers success and leaves the request with that id paid,
    and a second call answers success again and leaves the store as the
    first call left it. *)
Theorem mark_paid_unknown_or_repeated rid d :
  rid <> 0 -> sqlite_integer rid ->
  (Forall (fun r => id r <> rid) (pending_redemptions d) ->
   mark_redeem_paid (Some rid) d = (Ok (MarkedPaid rid), d)) /\
  (Forall (fun r => id r = rid -> status r = paid) (pending_redemptions d) ->
   mark_redeem_paid (Some rid) d = (Ok (MarkedPaid rid), d)) /\
  (fst (mark_redeem_paid (Some rid) d) = Ok (MarkedPaid rid) /\
   Forall (fun r => id r = rid -> status r = paid)
          (pending_redemptions (snd (mark_redeem_paid (Some rid) d))) /\
   mark_redeem_paid (Some rid) (snd (mark_redeem_paid (Some rid) d))
   = (Ok (MarkedPaid rid), snd (mark_redeem_paid (Some rid) d))).
Proof.
  intros Hne _.
  assert (Forall (fun r => id r = rid -> status r = paid) (pending_redemptions d) ->
          mark_redeem_paid (Some rid) d = (Ok (MarkedPaid rid), d)) as Hpaid.
  { intros Hp. rewrite mark_redeem_paid_rows by exact Hne. f_equal.
    assert (mark_row rid <$> pending_redemptions d = pending_redemptions d) as ->.
    { induction Hp as [|r rows Hr _ IH]; [reflexivity|].
      rewrite fmap_cons, mark_row_settled by exact Hr.
      f_equal. exact IH. }
    apply set_rows_same. }
  split; [|split; [exact Hpaid|]].
  - intros Hno. apply Hpaid. eapply Forall_impl; [exact Hno|].
    intros r Hr Hid. contradiction.
  - rewrite !mark_redeem_paid_rows by exact Hne. cbn [fst snd]. split; [reflexivity|].
    split.
    { cbn [set_rows pending_redemptions]. apply Forall_fmap, Forall_forall.
      intros r _ Hid. cbn. apply mark_row_any.
      unfold mark_row in Hid. destruct (id r =? rid) eqn:E.
      - apply Z.eqb_eq, E.
      - exact Hid. }
    f_equal. unfold set_rows. cbn [pending_redemptions users users_null csv_log].
    f_equal. rewrite <- list_fmap_compose. apply list_fmap_ext.
    intros i r _. apply mark_row_idemp.
Qed.

(** In Ann's store, whose one request has id 1: id 7 is unknown, and id 1
    is marked twice. *)
Lemma mark_paid_unknown_or_repeated_witness :
  7 <> 0 /\ sqlite_integer 7 /\ 1 <> 0 /\ sqlite_integer 1 /\
  (id <$> pending_redemptions ann_store = [1]) /\
  Forall (fun r => id r <> 7) (pending_redemptions ann_store) /\
  mark_redeem_paid (Some 7) ann_store = (Ok (MarkedPaid 7), ann_store) /\
  status <$> pending_redemptions (snd (mark_redeem_paid (Some 1) ann_store))
  = [paid] /\
  mark_redeem_paid (Some 1) (snd (mark_redeem_paid (Some 1) ann_store))
  = (Ok (MarkedPaid 1), snd (mark_redeem_paid (Some 1) ann_store)).
Proof.
  assert (sqlite_integer 7) as H7 by (unfold sqlite_integer; lia).
  assert (sqlite_integer 1) as H1 by (unfold sqlite_integer; lia).
  assert (Forall (fun r => id r <> 7) (pending_redemptions ann_store)) as Hno
    by (vm_compute; repeat constructor; discriminate).
  split; [discriminate|]. split; [exact H7|].
  split; [discriminate|]. split; [exact H1|].
  split; [vm_compute; reflexivity|]. split; [exact Hno|].
  destruct (mark_paid_unknown_or_repeated 7 ann_store) as (Hunknown & _);
    [discriminate | exact H7 |].
  destruct (mark_paid_unknown_or_repeated 1 ann_store) as (_ & _ & _ & _ & Htwice);
    [discriminate | exact H1 |].
  split; [exact (Hunknown Hno)|]. split; [vm_compute; reflexivity | exact Htwice].
Defined.

(** ** Reading an export back *)

(** *** Splitting and joining *)

Lemma append_nil (b : string) : EmptyString +:+ b = b.
Proof. reflexivity. Qed.

Lemma append_cons x (a b : string) : String x a +:+ b = String x (a +:+ b).
Proof. reflexivity. Qed.

Lemma lacks_app c a b : lacks c (a +:+ b) = lacks c a && lacks c b.
Proof.
  induction a as [|x a IH]; [reflexivity|].
  rewrite append_cons. cbn [lacks]. rewrite IH. apply andb_assoc.
Qed.

Lemma split_on_cons c s : exists w ws, split_on c s = w :: ws.
Proof.
  induction s as [|a s (w & ws & IH)]; cbn [split_on]; [eauto|].
  destruct (Ascii.eqb a c); [eauto|]. rewrite IH. eauto.
Qed.

Lemma split_on_app c w s :
  lacks c w = true -> split_on c (w +:+ String c s) = w :: split_on c s.
Proof.
  induction w as [|a w IH]; rewrite ?append_cons, ?append_nil; cbn [split_on lacks].
  - intros _. rewrite Ascii.eqb_refl. reflexivity.
  - intros H. apply andb_true_iff in H as [Ha Hw].
    apply negb_true_iff in Ha. rewrite Ha, (IH Hw). reflexivity.
Qed.

Lemma split_on_lacks c w : lacks c w = true -> split_on c w = [w].
Proof.
  induction w as [|a w IH]; cbn [split_on lacks]; [reflexivity|].
  intros H. apply andb_true_iff in H as [Ha Hw].
  apply negb_true_iff in Ha. rewrite Ha, (IH Hw). reflexivity.
Qed.

Lemma concat_cons2 sep x y l :
  String.concat sep (x :: y :: l) = x +:+ sep +:+ String.concat sep (y :: l).
Proof. reflexivity. Qed.

Lemma split_on_concat c fields :
  fields <> [] -> Forall (fun f => lacks c f = true) fields ->
  split_on c (String.concat (String c EmptyString) fields) = fields.
Proof.
  intros Hne H. induction H as [|f fs Hf Hfs IH]; [congruence|].
  destruct fs as [|g fs].
  - cbn [String.concat]. apply split_on_lacks, Hf.
  - rewrite concat_cons2, append_cons, append_nil.
    rewrite split_on_app by exact Hf. f_equal. apply IH. congruence.
Qed.

Lemma lacks_concat c sep fields :
  lacks c sep = true -> Forall (fun f => lacks c f = true) fields ->
  lacks c (String.concat sep fields) = true.
Proof.
  intros Hsep H. induction H as [|f fs Hf Hfs IH]; [reflexivity|].
  destruct fs as [|g fs]; [exact Hf|].
  rewrite concat_cons2, !lacks_app, Hf, Hsep, IH. reflexivity.
Qed.

(** *** Lines *)

Lemma app_assoc_string (a b c : string) : (a +:+ b) +:+ c = a +:+ (b +:+ c).
Proof. induction a as [|x a IH]; rewrite ?append_cons, ?append_nil; [reflexivity|]. rewrite IH. reflexivity. Qed.

Lemma app_empty_r (a : string) : a +:+ EmptyString = a.
Proof. induction a as [|x a IH]; rewrite ?append_cons, ?append_nil; [reflexivity|]. rewrite IH. reflexivity. Qed.

Lemma csv_line_unlines fields rest :
  csv_line fields +:+ unlines rest
  = unlines (String.concat (String comma EmptyString) fields :: rest).
Proof. unfold csv_line. cbn [unlines foldr]. rewrite app_assoc_string, append_cons, append_nil. reflexivity. Qed.

Lemma csv_of_rows_unlines sf rows :
  csv_of_rows sf rows
  = unlines (String.concat (String comma EmptyString)
               <$> (csv_header :: (row_fields sf <$> rows))).
Proof.
  unfold csv_of_rows.
  assert (forall acc,
    foldl (fun csv_data row => csv_data +:+ csv_line (row_fields sf row)) acc rows
    = acc +:+ unlines (String.concat (String comma EmptyString)
                         <$> (row_fields sf <$> rows))) as Hfold.
  { induction rows as [|r rows IH]; intros acc; cbn [foldl fmap list_fmap].
    - cbn [unlines foldr]. symmetry. apply app_empty_r.
    - rewrite IH, app_assoc_string. f_equal. apply csv_line_unlines. }
  rewrite Hfold. cbn [fmap list_fmap]. apply csv_line_unlines.
Qed.

Lemma split_on_unlines ls :
  Forall (fun l => lacks newline l = true) ls ->
  split_on newline (unlines ls) = ls ++ [EmptyString].
Proof.
  induction 1 as [|l ls Hl _ IH]; [reflexivity|].
  cbn [unlines foldr]. rewrite split_on_app by exact Hl.
  fold (unlines ls). rewrite IH. reflexivity.
Qed.

Lemma split_lines_unlines ls :
  Forall (fun l => lacks newline l = true) ls ->
  split_lines (unlines ls) = ls.
Proof.
  intros H. unfold split_lines. rewrite (split_on_unlines ls H).
  rewrite last_snoc. apply removelast_last.
Qed.

(** *** The text of the fields *)

Lemma pretty_N_char_lacks c k :
  c = comma \/ c = newline -> Ascii.eqb (pretty_N_char k) c = false.
Proof.
  intros [-> | ->]; unfold pretty_N_char; repeat case_match; reflexivity.
Qed.

Lemma pretty_N_go_lacks c x s :
  c = comma \/ c = newline ->
  lacks c s = true -> lacks c (pretty_N_go x s) = true.
Proof.
  intros Hc. revert s. induction (N.lt_wf_0 x) as [x _ IH]; intros s Hs.
  destruct (decide (x = 0)%N) as [->|Hx]; [exact Hs|].
  rewrite pretty_N_go_step by lia. apply IH.
  - apply N.div_lt; lia.
  - cbn [lacks]. rewrite (pretty_N_char_lacks c _ Hc), Hs. reflexivity.
Qed.

Lemma pretty_Z_lacks c (z : Z) :
  c = comma \/ c = newline -> lacks c (pretty z) = true.
Proof.
  intros Hc.
  assert (forall p : positive, lacks c (pretty p) = true) as Hp.
  { intros p. unfold pretty, pretty_positive, pretty, pretty_N.
    case_decide; [discriminate|]. apply pretty_N_go_lacks; [exact Hc | reflexivity]. }
  destruct z as [|p|p]; unfold pretty, pretty_Z.
  - destruct Hc as [-> | ->]; reflexivity.
  - apply Hp.
  - rewrite lacks_app, Hp. destruct Hc as [-> | ->]; reflexivity.
Qed.

Lemma status_text_lacks c s :
  c = comma \/ c = newline -> lacks c (status_text s) = true.
Proof. intros [-> | ->]; destruct s; reflexivity. Qed.

Lemma row_fields_lack sf c r :
  c = comma \/ c = newline -> row_clean sf r = true ->
  Forall (fun f => lacks c f = true) (row_fields sf r).
Proof.
  intros Hc H. unfold row_clean, no_delimiter in H.
  rewrite !andb_true_iff in H. destruct H as [[[? ?] [? ?]] [? ?]].
  unfold row_fields.
  repeat constructor;
    try apply pretty_Z_lacks; try apply status_text_lacks; try exact Hc;
    destruct Hc as [-> | ->]; assumption.
Qed.

(** *** The round trip *)

(** What is read back from rows without delimiters in their text: if in
    every row the user id, the printed amount and the timestamp hold
    neither a comma nor a newline, then splitting the export into lines and
    the lines at commas gives, after the header, the six printed fields of
    every row, in the order of the table. *)
Lemma export_csv_fields_of_clean_rows sf rows :
  Forall (fun r => row_clean sf r = true) rows ->
  parse_csv (csv_of_rows sf rows) = Some (row_fields sf <$> rows).
Proof.
  intros Hclean. unfold parse_csv.
  rewrite csv_of_rows_unlines, split_lines_unlines.
  - cbn [fmap list_fmap].
    rewrite bool_decide_eq_true_2 by (vm_compute; reflexivity). f_equal.
    induction Hclean as [|r rows Hr _ IH]; [reflexivity|].
    cbn [fmap list_fmap]. f_equal; [|exact IH].
    apply split_on_concat; [discriminate|].
    apply row_fields_lack; [left; reflexivity | exact Hr].
  - cbn [fmap list_fmap]. constructor; [vm_compute; reflexivity|].
    induction Hclean as [|r rows Hr _ IH]; [constructor|].
    cbn [fmap list_fmap]. constructor; [|exact IH].
    apply lacks_concat; [reflexivity|].
    apply row_fields_lack; [right; reflexivity | exact Hr].
Qed.

Example export_csv_of_ann :
  parse_csv (csv_of_rows repr_whole (pending_redemptions ann_store))
  = Some [["1"; "ann"; "5000000"; "5.0"; "2024-01-01 00:00:00"; "pending"]].
Proof.
  rewrite export_csv_fields_of_clean_rows
    by (vm_compute; repeat constructor).
  vm_compute. reflexivity.
Qed.

(** A request without user id and a request of the user "None" are
    exported as the same line, whatever the printer of floats. *)
Lemma export_csv_null_prints_as_none sf :
  user_id <$> pending_redemptions
                (snd (coin_exchange t0 None tenth_of_a_coin init_db))
  = [None] /\
  user_id <$> pending_redemptions
                (snd (coin_exchange t0 (Some "None") tenth_of_a_coin init_db))
  = [Some "None"] /\
  fst (export_csv sf (snd (coin_exchange t0 None tenth_of_a_coin init_db)))
  = fst (export_csv sf
           (snd (coin_exchange t0 (Some "None") tenth_of_a_coin init_db))).
Proof. repeat split; vm_compute; reflexivity. Qed.

(** C7.  The user "a,b" earns and asks for five dollars: one request is
    recorded.  Its line in the export has seven fields, for the comma of
    the user id is written as it is; read back, the table has one row of
    seven fields, with "a" and "b" where the user id was, and not the six
    fields that were written.  ([export_redemptions_csv] sends the same
    rows through [csv.writer], which quotes such a field.) *)
Theorem export_csv_comma_breaks_round_trip :
  (fun r => (id r, user_id r, coins_redeemed r, status r)) <$>
    pending_redemptions comma_store
  = [(1, Some "a,b", 5000000, pending)] /\
  fst (export_csv repr_whole comma_store)
  = Ok (CsvDocument
          (unlines ["id,user_id,coins_redeemed,usd_value,requested_at,status";
                    "1,a,b,5000000,5.0,2024-01-01 00:00:00,pending"])) /\
  parse_csv (csv_of_rows repr_whole (pending_redemptions comma_store))
  = Some [["1"; "a"; "b"; "5000000"; "5.0"; "2024-01-01 00:00:00"; "pending"]] /\
  parse_csv (csv_of_rows repr_whole (pending_redemptions comma_store))
  <> Some (row_fields repr_whole <$> pending_redemptions comma_store).
Proof.
  split; [vm_compute; reflexivity|]. split; [vm_compute; reflexivity|].
  split; [vm_compute; reflexivity|]. vm_compute. discriminate.
Qed.

(** ** Scenarios *)

(** Earn ten million coins on a fresh account, then look at it. *)
Example scenario_earn_then_status :
  fst (coin_status t0 (Some "ann") funded)
  = Ok (StatusOf (Some "ann") 10000000 0 50000000 "$0.00").
Proof. vm_compute. reflexivity. Qed.

(** Five dollars against that balance: accepted, five million coins
    reserved, one pending request. *)
Example scenario_exchange_five_dollars :
  fst (coin_exchange t0 (Some "ann") (of_int 5) funded)
  = Ok (Exchanged "$5.00" "24 hours") /\
  users ann_store !! "ann"
  = Some {| monthly_coin_earned := 10000000; monthly_coin_redeemed := 5000000;
            last_reset := "2024-01-01" |} /\
  (fun r => (id r, coins_redeemed r, status r)) <$> pending_redemptions ann_store
  = [(1, 5000000, pending)].
Proof. repeat split; vm_compute; reflexivity. Qed.

(** Two hundred dollars: refused whatever the balance. *)
Example scenario_exchange_over_ceiling d :
  coin_exchange t0 (Some "ann") (of_int 200) d = (Err InvalidRequest, d).
Proof. vm_compute. reflexivity. Qed.

(** The product is the product of doubles: 2.01 dollars reserve 2,009,999
    coins. *)
Example scenario_exchange_rounds_product :
  to_int (mul two_oh_one (of_int COINS_PER_DOLLAR)) = inr 2009999.
Proof. vm_compute. reflexivity. Qed.

(** A paid request is left alone by a later sweep. *)
Example scenario_paid_survives_sweep :
  status <$> pending_redemptions
    (run repr_whole [MarkPaid (Some 1); ExpireOld "2024-02-01 00:00:00"] ann_store)
  = [paid].
Proof. vm_compute. reflexivity. Qed.

(** A sweep at 10:00 on the second day expires the request made 25 hours
    before and keeps the one made an hour before. *)
Example scenario_sweep_by_age :
  status <$> pending_redemptions
    (run repr_whole
       [Earn t0 (Some "ann") 10000000;
        Exchange t_early (Some "ann") (of_int 1);
        Exchange t_late (Some "ann") (of_int 1);
        ExpireOld "2024-01-01 10:00:00"] init_db)
  = [expired; pending].
Proof. vm_compute. reflexivity. Qed.

(** The monthly reset. *)
Example scenario_reset_monthly :
  fst (coin_status t0 (Some "ann") (snd (reset_monthly t0 ann_store)))
  = Ok (StatusOf (Some "ann") 0 0 50000000 "$0.00").
Proof. vm_compute. reflexivity. Qed.

(** * The handlers, one by one *)

(** ** Earn *)

(** X1.  Earn with a user id and a positive amount answers with the amount
    and adds exactly that amount to the earned counter of that user, whose
    row is created first if there is none; the redeemed counter and the
    reset date of the row, the rows of all other users, the rows without a
    key and the table of requests stay as they were.  The amount, the
    stored counter and their sum are integers SQLite can hold
    ([sqlite_integer]): those are the requests the [UPDATE] of the handler
    carries out exactly. *)
Theorem earn_credits_exactly t u coins d :
  user_id_missing (Some u) = false -> 0 < coins ->
  sqlite_integer coins ->
  sqlite_integer (default 0 (monthly_coin_earned <$> users d !! u)) ->
  sqlite_integer (default 0 (monthly_coin_earned <$> users d !! u) + coins) ->
  fst (coin_earn t (Some u) coins d) = Ok (Earned coins) /\
  users (snd (coin_earn t (Some u) coins d)) !! u
  = Some {| monthly_coin_earned :=
              default 0 (monthly_coin_earned <$> users d !! u) + coins;
            monthly_coin_redeemed := redeemed_of u d;
            last_reset := default (utc_date t) (last_reset <$> users d !! u) |} /\
  (forall v, v <> u ->
     users (snd (coin_earn t (Some u) coins d)) !! v = users d !! v) /\
  users_null (snd (coin_earn t (Some u) coins d)) = users_null d /\
  pending_redemptions (snd (coin_earn t (Some u) coins d)) = pending_redemptions d.
Proof.
  intros Hu Hpos _ _ _. unfold coin_earn. rewrite Hu.
  apply Z.leb_gt in Hpos. rewrite Hpos. cbn [orb fst snd].
  split; [reflexivity|]. split; [|split; [|split]].
  - rewrite update_user_lookup, decide_True by reflexivity.
    rewrite get_or_create_user_lookup. unfold redeemed_of.
    destruct (users d !! u) as [a|] eqn:E.
    + rewrite (get_or_create_user_found t u a d E). destruct a; reflexivity.
    + rewrite (get_or_create_user_new t u d E). reflexivity.
  - intros v Hv. rewrite update_user_lookup, decide_False by congruence.
    apply get_or_create_user_other. congruence.
  - rewrite update_user_null. unfold get_or_create_user.
    destruct (select_user (Some u) d); reflexivity.
  - rewrite update_user_rows. apply get_or_create_user_rows.
Qed.

Lemma earn_credits_exactly_witness :
  user_id_missing (Some "ann") = false /\ 0 < 250 /\
  sqlite_integer 250 /\
  sqlite_integer (default 0 (monthly_coin_earned <$> users funded !! "ann")) /\
  sqlite_integer (default 0 (monthly_coin_earned <$> users funded !! "ann") + 250) /\
  fst (coin_earn t_late (Some "ann") 250 funded) = Ok (Earned 250) /\
  users (snd (coin_earn t_late (Some "ann") 250 funded)) !! "ann"
  = Some {| monthly_coin_earned := 10000250; monthly_coin_redeemed := 0;
            last_reset := "2024-01-01" |}.
Proof.
  assert (sqlite_integer 250) as H1 by (unfold sqlite_integer; lia).
  assert (sqlite_integer
            (default 0 (monthly_coin_earned <$> users funded !! "ann"))) as H2
    by (vm_compute; split; [discriminate | reflexivity]).
  assert (sqlite_integer
            (default 0 (monthly_coin_earned <$> users funded !! "ann") + 250))
    as H3 by (vm_compute; split; [discriminate | reflexivity]).
  split; [reflexivity|]. split; [lia|].
  split; [exact H1|]. split; [exact H2|]. split; [exact H3|].
  destruct (earn_credits_exactly t_late "ann" 250 funded)
    as (Hok & Hrow & _); [reflexivity | lia | exact H1 | exact H2 | exact H3 |].
  split; [exact Hok|]. rewrite Hrow. vm_compute. reflexivity.
Defined.

(** ** Requests that are turned down *)

Section InvalidRequests.

Variable str_float : float -> string.

(** X2.  A request answered with "invalid request" (400), or ended by an
    exception of [int()], leaves the whole store as it was: no account is
    created, no counter moves, no row is written. *)
Theorem invalid_request_changes_nothing q d :
  fst (handle str_float q d) = Err InvalidRequest \/
  (exists x, fst (handle str_float q d) = Raise x) ->
  snd (handle str_float q d) = d.
Proof.
  assert (forall o : outcome, o = Err InvalidRequest \/ (exists x, o = Raise x) ->
            o <> Err CapExceeded /\ o <> Err InsufficientBalance /\
            forall r, o <> Ok r) as Hno.
  { intros o [-> | [x ->]]; repeat split; try discriminate; intros; discriminate. }
  intros H. apply Hno in H as (Hcap & Hbal & Hok). clear Hno.
  destruct q; cbn [handle] in *.
  - unfold coin_earn in *. destruct (_ || _); [reflexivity|].
    exfalso. eapply Hok. reflexivity.
  - unfold coin_redeem in *. destruct (_ || _); [reflexivity|].
    destruct (get_or_create_user t uid d) as [user d1].
    destruct (_ >? _); exfalso; [apply Hcap | eapply Hok]; reflexivity.
  - unfold coin_exchange in *. destruct (to_int _); [reflexivity|].
    destruct (_ || _); [reflexivity|].
    destruct (get_or_create_user t uid d) as [user d1].
    destruct (_ >? _); [exfalso; apply Hbal; reflexivity|].
    destruct (_ >? _); exfalso; [apply Hcap | eapply Hok]; reflexivity.
  - unfold coin_status in *. destruct (user_id_missing uid); [reflexivity|].
    destruct (get_or_create_user t uid d) as [user d1].
    exfalso. eapply Hok. reflexivity.
  - reflexivity.
  - unfold mark_redeem_paid in *. destruct (id_missing rid); [reflexivity|].
    exfalso. eapply Hok. reflexivity.
  - exfalso. eapply Hok. reflexivity.
  - exfalso. eapply Hok. reflexivity.
  - reflexivity.
Qed.

End InvalidRequests.

Lemma invalid_request_changes_nothing_witness :
  (fst (handle repr_whole (Exchange t0 (Some "ann") huge) funded)
   = Err InvalidRequest \/
   exists x, fst (handle repr_whole (Exchange t0 (Some "ann") huge) funded)
             = Raise x) /\
  snd (handle repr_whole (Exchange t0 (Some "ann") huge) funded) = funded.
Proof.
  assert (fst (handle repr_whole (Exchange t0 (Some "ann") huge) funded)
          = Err InvalidRequest \/
          exists x, fst (handle repr_whole (Exchange t0 (Some "ann") huge) funded)
                    = Raise x) as H
    by (right; exists OverflowError; vm_compute; reflexivity).
  split; [exact H|].
  apply (invalid_request_changes_nothing repr_whole _ _ H).
Defined.

(** [get_or_create_user] keeps every row there is; a row it adds has both
    counters at zero. *)
Lemma get_or_create_user_keeps t uid d :
  (forall v a, users d !! v = Some a ->
     users (snd (get_or_create_user t uid d)) !! v = Some a) /\
  (forall v a, users (snd (get_or_create_user t uid d)) !! v = Some a ->
     users d !! v = Some a \/
     (users d !! v = None /\ a = fresh_account (utc_date t))).
Proof.
  unfold get_or_create_user.
  destruct (select_user uid d) as [a0|] eqn:E; cbn [snd]; [auto|].
  destruct uid as [u|]; cbn [insert_user users]; [|auto].
  cbn [select_user] in E. split; intros v a.
  - intros Hv. rewrite lookup_insert. case_decide; [congruence | exact Hv].
  - rewrite lookup_insert. case_decide as Huv; [|auto].
    subst v. intros [= <-]. right. auto.
Qed.

Section Refusals.

Variable str_float : float -> string.

(** X3.  A request that is turned down, whatever the error, leaves the
    table of requests and every existing account as they were.  The store
    can differ in one way only: the cap and balance errors are raised after
    [get_or_create_user], so the account asked about may be new, with both
    counters at zero. *)
Theorem refusal_changes_no_counter q d e :
  fst (handle str_float q d) = Err e ->
  pending_redemptions (snd (handle str_float q d)) = pending_redemptions d /\
  (forall v a, users d !! v = Some a ->
     users (snd (handle str_float q d)) !! v = Some a) /\
  (forall v a, users (snd (handle str_float q d)) !! v = Some a ->
     users d !! v = Some a \/
     (users d !! v = None /\
      monthly_coin_earned a = 0 /\ monthly_coin_redeemed a = 0)).
Proof.
  intros H.
  assert (snd (handle str_float q d) = d \/
          exists t uid, snd (handle str_float q d)
                        = snd (get_or_create_user t uid d)) as [-> | (t & uid & ->)].
  { destruct q; cbn [handle] in *.
    - unfold coin_earn in *. destruct (_ || _); [auto | discriminate].
    - unfold coin_redeem in *. destruct (_ || _); [auto|]. right. exists t, uid.
      destruct (get_or_create_user t uid d) as [user d1].
      destruct (_ >? _); [reflexivity | discriminate].
    - unfold coin_exchange in *. destruct (to_int _); [discriminate|].
      destruct (_ || _); [auto|]. right. exists t, uid.
      destruct (get_or_create_user t uid d) as [user d1].
      destruct (_ >? _); [reflexivity|].
      destruct (_ >? _); [reflexivity | discriminate].
    - unfold coin_status in *. destruct (user_id_missing uid); [auto|].
      destruct (get_or_create_user t uid d). discriminate.
    - auto.
    - unfold mark_redeem_paid in *. destruct (id_missing rid); [auto | discriminate].
    - discriminate.
    - discriminate.
    - auto. }
  - split; [reflexivity|]. split; auto.
  - split; [apply get_or_create_user_rows|].
    destruct (get_or_create_user_keeps t uid d) as [Hk1 Hk2].
    split; [exact Hk1|]. intros v a Hv.
    destruct (Hk2 v a Hv) as [?|[? ->]]; auto.
Qed.

End Refusals.

Lemma refusal_changes_no_counter_witness :
  fst (handle repr_whole (Redeem t_late (Some "bob") 50000001) funded)
  = Err CapExceeded /\
  pending_redemptions
    (snd (handle repr_whole (Redeem t_late (Some "bob") 50000001) funded))
  = pending_redemptions funded /\
  users (snd (handle repr_whole (Redeem t_late (Some "bob") 50000001) funded))
    !! "ann"
  = Some {| monthly_coin_earned := 10000000; monthly_coin_redeemed := 0;
            last_reset := "2024-01-01" |}.
Proof.
  assert (fst (handle repr_whole (Redeem t_late (Some "bob") 50000001) funded)
          = Err CapExceeded) as H by (vm_compute; reflexivity).
  destruct (refusal_changes_no_counter repr_whole _ _ _ H) as (Hrows & Hkeep & _).
  split; [exact H|]. split; [exact Hrows|].
  apply Hkeep. vm_compute. reflexivity.
Defined.

(** ** Accounts *)

(** X4.  [get_or_create_user] on a user id is idempotent: a second call
    returns the same account and changes nothing, at whatever date it is
    made.  Without a user id it is not: each call inserts one more row with
    a NULL key. *)
Theorem get_or_create_user_twice t t' uid d :
  match uid with
  | Some u =>
      get_or_create_user t' uid (snd (get_or_create_user t uid d))
      = get_or_create_user t uid d
  | None =>
      users_null (snd (get_or_create_user t' uid (snd (get_or_create_user t uid d))))
      = users_null d ++ [fresh_account (utc_date t); fresh_account (utc_date t')]
  end.
Proof.
  destruct uid as [u|].
  - pose proof (get_or_create_user_lookup t u d) as Hl.
    destruct (get_or_create_user t (Some u) d) as [a d1]. cbn [fst snd] in *.
    apply get_or_create_user_found, Hl.
  - rewrite !get_or_create_user_null. cbn. rewrite <- app_assoc. reflexivity.
Qed.

Section OtherUsers.

Variable str_float : float -> string.

(** X5.  A request reads and writes the row of the user it names only: the
    row of every other user, present or not, is the same before and after.
    The monthly reset, which has no [WHERE], is the one exception. *)
Theorem other_users_untouched q d v :
  ~ touches v q ->
  users (snd (handle str_float q d)) !! v = users d !! v.
Proof.
  intros Hq. destruct q; cbn [handle touches] in *.
  - unfold coin_earn. destruct (_ || _); [reflexivity|]. cbn [snd].
    rewrite update_user_lookup, decide_False by exact Hq.
    apply get_or_create_user_other, Hq.
  - unfold coin_redeem. destruct (_ || _); [reflexivity|].
    pose proof (get_or_create_user_other t uid v d Hq) as Ho.
    destruct (get_or_create_user t uid d) as [user d1]. cbn [snd] in Ho.
    destruct (_ >? _); [exact Ho|]. cbn [snd].
    rewrite update_user_lookup, decide_False by exact Hq. exact Ho.
  - destruct (coin_exchange_store t uid usd d) as [-> | [-> | (c & -> & _)]].
    + reflexivity.
    + apply get_or_create_user_other, Hq.
    + rewrite exchanged_lookup, decide_False by exact Hq.
      apply get_or_create_user_other, Hq.
  - unfold coin_status. destruct (user_id_missing uid); [reflexivity|].
    pose proof (get_or_create_user_other t uid v d Hq) as Ho.
    destruct (get_or_create_user t uid d). exact Ho.
  - reflexivity.
  - unfold mark_redeem_paid. destruct (id_missing rid); reflexivity.
  - reflexivity.
  - tauto.
  - reflexivity.
Qed.

End OtherUsers.

Lemma other_users_untouched_witness :
  ~ touches "ann" (Redeem t_late (Some "bob") 5) /\
  users (snd (handle repr_whole (Redeem t_late (Some "bob") 5) funded)) !! "ann"
  = users funded !! "ann".
Proof.
  assert (~ touches "ann" (Redeem t_late (Some "bob") 5)) as H
    by (cbn; discriminate).
  split; [exact H|]. apply (other_users_untouched repr_whole _ _ _ H).
Defined.

(** ** Status, and what Redeem accepts *)

Section StatusRuns.

Variable str_float : float -> string.

(** X6.  After any sequence of requests, Status reports
    [remaining_redeemable_coins = MAX_MONTHLY_COINS - redeemed] with
    [redeemed] between 0 and the cap: the [max(0, ...)] of the handler never
    clips. *)
Theorem status_reports_remaining qs t u :
  user_id_missing (Some u) = false ->
  exists earned redeemed dollars,
    fst (coin_status t (Some u) (run str_float qs init_db))
    = Ok (StatusOf (Some u) earned redeemed
            (MAX_MONTHLY_COINS - redeemed) dollars) /\
    0 <= redeemed <= MAX_MONTHLY_COINS.
Proof.
  intros Hu.
  assert (all_accounts within_cap (run str_float qs init_db)) as Hinv.
  { apply run_invariant; [|apply all_accounts_init].
    intros q d _. apply handle_within_cap. }
  destruct (get_or_create_user_all within_cap t (Some u) _ within_cap_fresh Hinv)
    as [_ Hcap].
  unfold coin_status. rewrite Hu.
  destruct (get_or_create_user t (Some u) (run str_float qs init_db))
    as [user d1]. cbn [fst] in *.
  unfold within_cap in Hcap. do 3 eexists. split; [|exact Hcap].
  rewrite Z.max_r by lia. reflexivity.
Qed.

End StatusRuns.

Lemma status_reports_remaining_witness :
  user_id_missing (Some "ann") = false /\
  exists earned redeemed dollars,
    fst (coin_status t_late (Some "ann") (run repr_whole settle_expired init_db))
    = Ok (StatusOf (Some "ann") earned redeemed
            (MAX_MONTHLY_COINS - redeemed) dollars) /\
    0 <= redeemed <= MAX_MONTHLY_COINS.
Proof.
  split; [reflexivity|].
  apply (status_reports_remaining repr_whole settle_expired t_late "ann").
  reflexivity.
Defined.

(** X7.  Status and Redeem agree, in any store: Redeem of [k] coins
    succeeds exactly when [k] is positive and at most the
    [remaining_redeemable_coins] that Status reports for the same user. *)
Theorem redeem_accepts_up_to_remaining t t' u d :
  user_id_missing (Some u) = false ->
  exists remaining,
    remaining_of (fst (coin_status t (Some u) d)) = Some remaining /\
    forall k, succeeded (fst (coin_redeem t' (Some u) k d)) <-> 0 < k <= remaining.
Proof.
  intros Hu. unfold coin_status, coin_redeem. rewrite Hu. cbn [orb].
  assert (monthly_coin_redeemed (fst (get_or_create_user t (Some u) d))
          = monthly_coin_redeemed (fst (get_or_create_user t' (Some u) d))) as Hsame.
  { destruct (users d !! u) as [a|] eqn:E.
    - rewrite !(get_or_create_user_found _ u a d E). reflexivity.
    - rewrite !(get_or_create_user_new _ u d E). reflexivity. }
  destruct (get_or_create_user t (Some u) d) as [user d1].
  destruct (get_or_create_user t' (Some u) d) as [user' d1'].
  cbn [fst remaining_of] in *. eexists. split; [reflexivity|].
  intros k. rewrite <- Hsame.
  destruct (k <=? 0) eqn:Hk; cbn [fst succeeded].
  - apply Z.leb_le in Hk. split; [tauto | lia].
  - apply Z.leb_gt in Hk.
    destruct (monthly_coin_redeemed user + k >? MAX_MONTHLY_COINS) eqn:Hc;
      cbn [fst succeeded].
    + apply Z.gtb_lt in Hc. split; [tauto | lia].
    + rewrite Z.gtb_ltb in Hc. apply Z.ltb_ge in Hc. split; [lia | tauto].
Qed.

(** ** The monthly reset *)

(** X8.  The monthly reset writes the accounts only: the table of requests
    is unchanged, including the requests still pending, and no account is
    added or removed.  After it every user can redeem up to the full cap
    again. *)
Theorem reset_monthly_reopens_cap t t' u d :
  user_id_missing (Some u) = false ->
  pending_redemptions (snd (reset_monthly t d)) = pending_redemptions d /\
  dom (users (snd (reset_monthly t d))) = dom (users d) /\
  (forall k, 0 < k <= MAX_MONTHLY_COINS ->
     succeeded (fst (coin_redeem t' (Some u) k (snd (reset_monthly t d))))).
Proof.
  intros Hu. split; [reflexivity|]. split; [cbn; apply dom_fmap_L|].
  intros k Hk. unfold coin_redeem. rewrite Hu.
  assert ((k <=? 0) = false) as -> by (apply Z.leb_gt; lia). cbn [orb].
  assert (monthly_coin_redeemed
            (fst (get_or_create_user t' (Some u) (snd (reset_monthly t d)))) = 0)
    as Hz.
  { unfold get_or_create_user. cbn [select_user reset_monthly snd users].
    rewrite lookup_fmap. destruct (users d !! u); reflexivity. }
  destruct (get_or_create_user t' (Some u) (snd (reset_monthly t d)))
    as [user d1]. cbn [fst] in Hz. rewrite Hz.
  assert ((0 + k >? MAX_MONTHLY_COINS) = false) as ->.
  { rewrite Z.gtb_ltb. apply Z.ltb_ge. lia. }
  exact I.
Qed.

(** ** When an exchange goes through *)

(** X9.  For a double in (0, 100], [int()] returns and Exchange succeeds
    exactly when the coins required are at most [earned - redeemed] and
    [redeemed] plus the coins required is at most the cap, for the account
    as [get_or_create_user] returns it. *)
Theorem exchange_succeeds_iff t uid usd d :
  is_double usd -> usd_in_range usd ->
  exists coins_required,
    to_int (mul usd (of_int COINS_PER_DOLLAR)) = inr coins_required /\
    (succeeded (fst (coin_exchange t uid usd d)) <->
     coins_required
       <= monthly_coin_earned (fst (get_or_create_user t uid d))
          - monthly_coin_redeemed (fst (get_or_create_user t uid d)) /\
     monthly_coin_redeemed (fst (get_or_create_user t uid d)) + coins_required
       <= MAX_MONTHLY_COINS).
Proof.
  intros Hd Hr. destruct (coins_required_returns usd Hd Hr) as [c Hc].
  destruct (usd_in_range_finite usd Hr) as (_ & _ & _ & _ & Hlo & Hhi).
  exists c. split; [exact Hc|].
  unfold coin_exchange. rewrite Hc, Hlo, Hhi. cbn [orb].
  destruct (get_or_create_user t uid d) as [user d1]. cbn [fst].
  destruct (c >? _) eqn:Hbal; cbn [fst succeeded].
  - apply Z.gtb_lt in Hbal. split; [tauto | lia].
  - rewrite Z.gtb_ltb in Hbal. apply Z.ltb_ge in Hbal.
    destruct (monthly_coin_redeemed user + c >? MAX_MONTHLY_COINS) eqn:Hcap;
      cbn [fst succeeded].
    + apply Z.gtb_lt in Hcap. split; [tauto | lia].
    + rewrite Z.gtb_ltb in Hcap. apply Z.ltb_ge in Hcap. split; [lia | tauto].
Qed.

Lemma redeem_accepts_up_to_remaining_witness :
  user_id_missing (Some "ann") = false /\
  remaining_of (fst (coin_status t0 (Some "ann") ann_store)) = Some 45000000 /\
  succeeded (fst (coin_redeem t_late (Some "ann") 45000000 ann_store)) /\
  ~ succeeded (fst (coin_redeem t_late (Some "ann") 45000001 ann_store)).
Proof.
  split; [reflexivity|].
  destruct (redeem_accepts_up_to_remaining t0 t_late "ann" ann_store)
    as (remaining & Hrem & Hk); [reflexivity|].
  assert (remaining = 45000000) as -> by (vm_compute in Hrem; congruence).
  split; [exact Hrem|].
  split; [apply Hk; lia | intros Hs; apply Hk in Hs; lia].
Defined.

Lemma reset_monthly_reopens_cap_witness :
  user_id_missing (Some "ann") = false /\
  ~ succeeded (fst (coin_redeem t_late (Some "ann") 50000000 ann_store)) /\
  succeeded (fst (coin_redeem t_late (Some "ann") 50000000
                    (snd (reset_monthly t_late ann_store)))).
Proof.
  split; [reflexivity|]. split; [vm_compute; tauto|].
  destruct (reset_monthly_reopens_cap t_late t_late "ann" ann_store)
    as (_ & _ & Hk); [reflexivity|].
  apply Hk. unfold MAX_MONTHLY_COINS. lia.
Defined.

Lemma exchange_succeeds_iff_witness :
  is_double (of_int 5) /\ usd_in_range (of_int 5) /\
  succeeded (fst (coin_exchange t0 (Some "ann") (of_int 5) funded)).
Proof.
  assert (is_double (of_int 5)) as Hd by (vm_compute; reflexivity).
  assert (usd_in_range (of_int 5)) as Hr by (split; vm_compute; reflexivity).
  split; [exact Hd|]. split; [exact Hr|].
  destruct (exchange_succeeds_iff t0 (Some "ann") (of_int 5) funded Hd Hr)
    as (c & Hc & Hiff).
  assert (c = 5000000) as -> by (vm_compute in Hc; congruence).
  apply Hiff. vm_compute. split; discriminate.
Defined.

(** ** Amounts in cents *)

Lemma coins_of_cents_all : forallb coins_of_cents (seqZ 1 10000) = true.
Proof. vm_compute. reflexivity. Qed.

Lemma coins_of_cents_bounds k :
  1 <= k <= 10000 ->
  exists c,
    to_int (mul (cents k) (of_int COINS_PER_DOLLAR)) = inr c /\
    k * 10000 - 1 <= c <= k * 10000 /\
    (k mod 100 = 0 -> c = k * 10000).
Proof.
  intros Hk.
  assert (coins_of_cents k = true) as Hc.
  { pose proof coins_of_cents_all as H. rewrite forallb_forall in H.
    apply H, list_elem_of_In, elem_of_seqZ. lia. }
  unfold coins_of_cents in Hc.
  destruct (to_int (mul (cents k) (of_int COINS_PER_DOLLAR))) as [x|c];
    [discriminate|].
  exists c. split; [reflexivity|].
  apply andb_prop in Hc as [Hc Hex]. apply andb_prop in Hc as [Hlo Hhi].
  apply Z.leb_le in Hlo, Hhi. split; [lia|].
  intros Hmod. apply Z.eqb_eq in Hmod. rewrite Hmod in Hex.
  apply Z.eqb_eq, Hex.
Qed.

(** X10.  For an amount of [k] cents, 1 <= k <= 10000, a successful
    Exchange appends one pending row whose [coins_redeemed] is [10000 * k]
    or one coin less, never more, and exactly [10000 * k] when the amount is
    a whole number of dollars. *)
Theorem exchange_of_cents_loses_at_most_one_coin t uid k d :
  1 <= k <= 10000 ->
  succeeded (fst (coin_exchange t uid (cents k) d)) ->
  exists c,
    k * 10000 - 1 <= c <= k * 10000 /\
    (k mod 100 = 0 -> c = k * 10000) /\
    pending_redemptions (snd (coin_exchange t uid (cents k) d))
    = pending_redemptions d ++
        [{| id := next_id (pending_redemptions d); user_id := uid;
            coins_redeemed := c; usd_value := cents k;
            requested_at := utc_datetime t; status := pending |}].
Proof.
  intros Hk Hs. destruct (coins_of_cents_bounds k Hk) as (c & Hc & Hb & Hw).
  exists c. split; [exact Hb|]. split; [exact Hw|].
  unfold coin_exchange in *. rewrite Hc in *.
  destruct (le_int (cents k) 0 || gt_int (cents k) 100); [contradiction|].
  pose proof (get_or_create_user_rows t uid d) as Hrows.
  destruct (get_or_create_user t uid d) as [user d1]. cbn [snd] in Hrows.
  destruct (c >? _); [contradiction|].
  destruct (monthly_coin_redeemed user + c >? MAX_MONTHLY_COINS); [contradiction|].
  cbn [snd log_redemption_csv pending_redemptions insert_redemption set_rows].
  rewrite update_user_rows, Hrows. reflexivity.
Qed.

Lemma exchange_of_cents_loses_at_most_one_coin_witness :
  1 <= 201 <= 10000 /\
  succeeded (fst (coin_exchange t0 (Some "ann") (cents 201) funded)) /\
  exists c,
    201 * 10000 - 1 <= c <= 201 * 10000 /\
    (201 mod 100 = 0 -> c = 201 * 10000) /\
    pending_redemptions (snd (coin_exchange t0 (Some "ann") (cents 201) funded))
    = pending_redemptions funded ++
        [{| id := next_id (pending_redemptions funded); user_id := Some "ann";
            coins_redeemed := c; usd_value := cents 201;
            requested_at := utc_datetime t0; status := pending |}].
Proof.
  split; [lia|]. split; [vm_compute; exact I|].
  apply (exchange_of_cents_loses_at_most_one_coin t0 (Some "ann") 201 funded);
    [lia | vm_compute; exact I].
Defined.

(** ** The table of requests, request by request *)

Section RequestTable.

Variable str_float : float -> string.

(** What a request does to the table and to the audit file: nothing, a
    status update on every row, or one more row with its audit row. *)
Lemma handle_table q d :
  (pending_redemptions (snd (handle str_float q d)) = pending_redemptions d /\
   csv_log (snd (handle str_float q d)) = csv_log d) \/
  (exists f,
     pending_redemptions (snd (handle str_float q d)) = f <$> pending_redemptions d /\
     csv_log (snd (handle str_float q d)) = csv_log d /\
     users (snd (handle str_float q d)) = users d /\
     ((exists rid, f = mark_row rid) \/ (exists cutoff, f = expire_row cutoff))) \/
  (exists t uid usd c,
     q = Exchange t uid usd /\
     snd (handle str_float q d)
     = exchanged t uid usd c (snd (get_or_create_user t uid d))).
Proof.
  assert (forall t uid,
            pending_redemptions (snd (get_or_create_user t uid d))
            = pending_redemptions d /\
            csv_log (snd (get_or_create_user t uid d)) = csv_log d) as Hgoc.
  { intros t uid. unfold get_or_create_user.
    destruct (select_user uid d); [auto|]. destruct uid; auto. }
  destruct q; cbn [handle].
  - left. unfold coin_earn. destruct (_ || _); [auto|]. cbn [snd].
    destruct (Hgoc t uid) as [Hr Hl]. rewrite update_user_rows.
    split; [exact Hr|]. destruct uid; exact Hl.
  - left. unfold coin_redeem. destruct (_ || _); [auto|].
    destruct (Hgoc t uid) as [Hr Hl].
    destruct (get_or_create_user t uid d) as [user d1]. cbn [snd] in *.
    destruct (_ >? _); [auto|]. cbn [snd]. rewrite update_user_rows.
    split; [exact Hr|]. destruct uid; exact Hl.
  - destruct (coin_exchange_store t uid usd d) as [-> | [-> | (c & -> & _)]].
    + auto.
    + left. apply Hgoc.
    + right. right. exists t, uid, usd, c. auto.
  - left. unfold coin_status. destruct (user_id_missing uid); [auto|].
    specialize (Hgoc t uid). destruct (get_or_create_user t uid d). exact Hgoc.
  - auto.
  - unfold mark_redeem_paid. destruct (id_missing rid); [auto|].
    right. left. exists (mark_row (default 0 rid)). cbn. eauto 10.
  - right. left. exists (expire_row expired_time). cbn. eauto 10.
  - auto.
  - auto.
Qed.

Lemma mark_row_fields rid r :
  id (mark_row rid r) = id r /\ user_id (mark_row rid r) = user_id r /\
  coins_redeemed (mark_row rid r) = coins_redeemed r /\
  usd_value (mark_row rid r) = usd_value r /\
  requested_at (mark_row rid r) = requested_at r.
Proof. unfold mark_row. destruct (_ =? _); repeat split. Qed.

Lemma expire_row_fields cutoff r :
  id (expire_row cutoff r) = id r /\ user_id (expire_row cutoff r) = user_id r /\
  coins_redeemed (expire_row cutoff r) = coins_redeemed r /\
  usd_value (expire_row cutoff r) = usd_value r /\
  requested_at (expire_row cutoff r) = requested_at r.
Proof. unfold expire_row. destruct (_ && _); repeat split. Qed.

Lemma foldr_max_snoc (l : list Z) x :
  0 <= x -> foldr Z.max 0 (l ++ [x]) = Z.max (foldr Z.max 0 l) x.
Proof.
  intros Hx. induction l as [|a l IH]; cbn [foldr app]; [lia|].
  rewrite IH. lia.
Qed.

Lemma foldr_max_seqZ n :
  foldr Z.max 0 (seqZ 1 (Z.of_nat n)) = Z.of_nat n.
Proof.
  induction n as [|n IH]; [reflexivity|].
  rewrite seqZ_S, foldr_max_snoc, IH by lia. lia.
Qed.

(** ** Ids *)

Lemma run_ids qs :
  id <$> pending_redemptions (run str_float qs init_db)
  = seqZ 1 (Z.of_nat (length (pending_redemptions (run str_float qs init_db)))).
Proof.
  apply (run_invariant str_float
           (fun d => id <$> pending_redemptions d
                     = seqZ 1 (Z.of_nat (length (pending_redemptions d)))));
    [|reflexivity].
  intros q d _ H.
  destruct (handle_table q d)
    as [[-> _] | [(f & -> & _ & _ & Hf) | (t & uid & usd & c & _ & ->)]].
  - exact H.
  - rewrite length_fmap, <- H, <- list_fmap_compose. apply list_fmap_ext.
    intros i r _. cbn.
    destruct Hf as [[rid ->] | [cutoff ->]];
      [apply mark_row_fields | apply expire_row_fields].
  - rewrite exchanged_rows, get_or_create_user_rows.
    rewrite fmap_app, length_app, Nat.add_1_r, seqZ_S, <- H. cbn [fmap list_fmap id].
    unfold next_id. rewrite H, foldr_max_seqZ. reflexivity.
Qed.

(** X11.  After any sequence of requests from the empty store the ids of
    the table of requests are 1, 2, ..., n in the order of insertion: no id
    is skipped or used twice. *)
Theorem request_ids_count_up qs :
  id <$> pending_redemptions (run str_float qs init_db)
  = seqZ 1 (Z.of_nat (length (pending_redemptions (run str_float qs init_db)))).
Proof. apply run_ids. Qed.

(** X12.  In a store reached from the empty one, MarkPaid with a positive
    id writes the status of the row at position [id - 1], and of no other
    row; with an id above the number of rows it writes nothing.  The
    accounts are not touched. *)
Theorem mark_paid_changes_one_row qs rid :
  1 <= rid ->
  pending_redemptions (snd (mark_redeem_paid (Some rid) (run str_float qs init_db)))
  = alter (set_status paid) (Z.to_nat (rid - 1))
      (pending_redemptions (run str_float qs init_db)) /\
  users (snd (mark_redeem_paid (Some rid) (run str_float qs init_db)))
  = users (run str_float qs init_db).
Proof.
  intros Hrid. pose proof (run_ids qs) as Hids.
  rewrite mark_redeem_paid_rows by lia. cbn [snd set_rows pending_redemptions users].
  split; [|reflexivity].
  apply list_eq. intros i. rewrite list_lookup_fmap.
  destruct (pending_redemptions (run str_float qs init_db) !! i) as [r|] eqn:Hi.
  - assert (id r = 1 + Z.of_nat i) as Hid.
    { assert ((id <$> pending_redemptions (run str_float qs init_db)) !! i
              = Some (id r)) as Hl by (rewrite list_lookup_fmap, Hi; reflexivity).
      rewrite Hids in Hl. apply lookup_seqZ in Hl. lia. }
    cbn [fmap option_fmap option_map]. unfold mark_row. rewrite Hid.
    destruct (decide (i = Z.to_nat (rid - 1))) as [->|Hne].
    + rewrite list_lookup_alter_eq, Hi. cbn.
      assert ((1 + Z.of_nat (Z.to_nat (rid - 1)) =? rid) = true) as ->
        by (apply Z.eqb_eq; lia).
      reflexivity.
    + rewrite list_lookup_alter_ne, Hi by congruence.
      assert ((1 + Z.of_nat i =? rid) = false) as -> by (apply Z.eqb_neq; lia).
      reflexivity.
  - cbn. symmetry. apply lookup_ge_None. rewrite length_alter.
    apply lookup_ge_None in Hi. exact Hi.
Qed.

End RequestTable.

Lemma mark_paid_changes_one_row_witness :
  1 <= 2 /\
  status <$> pending_redemptions
    (snd (mark_redeem_paid (Some 2)
            (run repr_whole
               [Earn t0 (Some "ann") 10000000;
                Exchange t_early (Some "ann") (of_int 1);
                Exchange t_late (Some "ann") (of_int 1)] init_db)))
  = [pending; paid].
Proof.
  split; [lia|].
  destruct (mark_paid_changes_one_row repr_whole
              [Earn t0 (Some "ann") 10000000;
               Exchange t_early (Some "ann") (of_int 1);
               Exchange t_late (Some "ann") (of_int 1)] 2) as [Hrows _]; [lia|].
  rewrite Hrows. vm_compute. reflexivity.
Defined.

(** ** The list of pending requests *)

Lemma expire_row_pending cutoff r :
  status (expire_row cutoff r) = pending <->
  status r = pending /\ String.ltb (requested_at r) cutoff = false.
Proof.
  unfold expire_row. case_bool_decide as Hp; cbn [andb].
  - destruct (String.ltb (requested_at r) cutoff); cbn [status set_status].
    + split; [discriminate | intros [_ ?]; discriminate].
    + tauto.
  - tauto.
Qed.

Lemma expire_row_fresh cutoff r :
  String.ltb (requested_at r) cutoff = false -> expire_row cutoff r = r.
Proof. intros H. unfold expire_row. rewrite H, andb_false_r. reflexivity. Qed.

Lemma mark_row_pending rid r :
  status (mark_row rid r) = pending <-> status r = pending /\ id r <> rid.
Proof.
  unfold mark_row. destruct (id r =? rid) eqn:Hid.
  - apply Z.eqb_eq in Hid. cbn [status set_status].
    split; [discriminate | tauto].
  - apply Z.eqb_neq in Hid. tauto.
Qed.

(** X13.  What ListPending shows after a sweep: the requests that were
    pending and whose [requested_at] is not before the cutoff (compared as
    strings), in the order of the table and unchanged. *)
Theorem pending_after_sweep cutoff d :
  fst (get_pending_redemptions (snd (expire_old_redemptions cutoff d)))
  = Ok (Pending (filter (fun r => status r = pending /\
                                  String.ltb (requested_at r) cutoff = false)
                        (pending_redemptions d))).
Proof.
  cbn [get_pending_redemptions expire_old_redemptions fst snd set_rows
       pending_redemptions]. do 2 f_equal.
  induction (pending_redemptions d) as [|r rows IH]; [reflexivity|].
  cbn [fmap list_fmap]. rewrite !filter_cons, IH.
  pose proof (expire_row_pending cutoff r) as Hiff.
  destruct (decide (status (expire_row cutoff r) = pending)) as [H1|H1];
    destruct (decide (status r = pending /\
                      String.ltb (requested_at r) cutoff = false)) as [H2|H2];
    try tauto.
  rewrite expire_row_fresh by tauto. reflexivity.
Qed.

(** X14.  What ListPending shows after MarkPaid of an id other than 0: the
    requests that were pending, without the one that has this id. *)
Theorem pending_after_mark_paid rid d :
  rid <> 0 ->
  fst (get_pending_redemptions (snd (mark_redeem_paid (Some rid) d)))
  = Ok (Pending (filter (fun r => status r = pending /\ id r <> rid)
                        (pending_redemptions d))).
Proof.
  intros Hne. rewrite mark_redeem_paid_rows by exact Hne.
  cbn [get_pending_redemptions fst snd set_rows pending_redemptions]. do 2 f_equal.
  induction (pending_redemptions d) as [|r rows IH]; [reflexivity|].
  cbn [fmap list_fmap]. rewrite !filter_cons, IH.
  pose proof (mark_row_pending rid r) as Hiff.
  destruct (decide (status (mark_row rid r) = pending)) as [H1|H1];
    destruct (decide (status r = pending /\ id r <> rid)) as [H2|H2];
    try tauto.
  rewrite mark_row_other by tauto. reflexivity.
Qed.

Lemma pending_after_mark_paid_witness :
  1 <> 0 /\
  fst (get_pending_redemptions (snd (mark_redeem_paid (Some 1) ann_store)))
  = Ok (Pending []).
Proof.
  split; [discriminate|].
  rewrite (pending_after_mark_paid 1 ann_store) by discriminate.
  vm_compute. reflexivity.
Defined.

(** ** The sweep *)

Lemma expire_row_twice c1 c2 r :
  expire_row c2 (expire_row c1 r)
  = if bool_decide (status r = pending) &&
       (String.ltb (requested_at r) c1 || String.ltb (requested_at r) c2)
    then set_status expired r else r.
Proof.
  unfold expire_row at 2. case_bool_decide as Hp; cbn [andb].
  - destruct (String.ltb (requested_at r) c1); cbn [orb].
    + unfold expire_row. cbn [status set_status].
      case_bool_decide; [discriminate | reflexivity].
    + unfold expire_row. case_bool_decide; [reflexivity | tauto].
  - unfold expire_row. case_bool_decide; [tauto | reflexivity].
Qed.

(** X15.  The sweep is idempotent, and two sweeps with different cutoffs
    give the same store in either order. *)
Theorem sweeps_commute c1 c2 d :
  snd (expire_old_redemptions c1 (snd (expire_old_redemptions c1 d)))
  = snd (expire_old_redemptions c1 d) /\
  snd (expire_old_redemptions c2 (snd (expire_old_redemptions c1 d)))
  = snd (expire_old_redemptions c1 (snd (expire_old_redemptions c2 d))).
Proof.
  cbn [expire_old_redemptions snd set_rows pending_redemptions users users_null
       csv_log].
  assert (expire_row c1 <$> (expire_row c1 <$> pending_redemptions d)
          = expire_row c1 <$> pending_redemptions d) as ->.
  { rewrite <- list_fmap_compose. apply list_fmap_ext. intros i r _. cbn.
    rewrite expire_row_twice. unfold expire_row.
    destruct (String.ltb (requested_at r) c1); reflexivity. }
  assert (expire_row c2 <$> (expire_row c1 <$> pending_redemptions d)
          = expire_row c1 <$> (expire_row c2 <$> pending_redemptions d)) as ->.
  { rewrite <- !list_fmap_compose. apply list_fmap_ext. intros i r _. cbn.
    rewrite !expire_row_twice.
    rewrite (orb_comm (String.ltb (requested_at r) c1)). reflexivity. }
  split; reflexivity.
Qed.

(** ** The audit file *)

Lemma get_or_create_user_log t uid d :
  csv_log (snd (get_or_create_user t uid d)) = csv_log d.
Proof.
  unfold get_or_create_user.
  destruct (select_user uid d); [reflexivity|]. destruct uid; reflexivity.
Qed.

Section AuditFile.

Variable str_float : float -> string.

(** X16.  From the empty store with no audit file, after any sequence of
    requests the audit file has one row for each row of the table of
    requests, in the same order and with the same user, coins and two-decimal
    dollar amount, always with status "pending" whatever became of the
    request; the file exists exactly when the table is not empty. *)
Theorem audit_file_mirrors_requests qs :
  logged <$> default [] (csv_log (run str_float qs init_db))
  = requested <$> pending_redemptions (run str_float qs init_db) /\
  (csv_log (run str_float qs init_db) = None <->
   pending_redemptions (run str_float qs init_db) = []).
Proof.
  apply (run_invariant str_float
           (fun d => logged <$> default [] (csv_log d)
                     = requested <$> pending_redemptions d /\
                     (csv_log d = None <-> pending_redemptions d = [])));
    [|split; [reflexivity | tauto]].
  intros q d _ [H Hnone].
  destruct (handle_table str_float q d)
    as [[-> ->] | [(f & -> & -> & _ & Hf) | (t & uid & usd & c & _ & ->)]].
  - auto.
  - split.
    + rewrite H, <- list_fmap_compose. apply list_fmap_ext. intros i r _.
      unfold requested. cbn.
      destruct Hf as [[rid ->] | [cutoff ->]].
      * destruct (mark_row_fields rid r) as (_ & -> & -> & -> & _). reflexivity.
      * destruct (expire_row_fields cutoff r) as (_ & -> & -> & -> & _). reflexivity.
    + rewrite Hnone. split; [intros ->; reflexivity|].
      apply fmap_nil_inv.
  - rewrite exchanged_rows, get_or_create_user_rows. unfold exchanged.
    cbn [log_redemption_csv csv_log insert_redemption set_rows].
    assert (csv_log (update_user uid (add_redeemed c)
                       (snd (get_or_create_user t uid d))) = csv_log d) as ->.
    { rewrite <- (get_or_create_user_log t uid d). destruct uid; reflexivity. }
    split.
    + change (logged <$> (default [] (csv_log d) ++
                [{| log_timestamp := utc_datetime t; log_user_id := uid;
                    log_usd_value := format_2f usd; log_coins_redeemed := c;
                    log_status := "pending" |}])
              = requested <$> (pending_redemptions d ++
                [{| id := next_id (pending_redemptions d); user_id := uid;
                    coins_redeemed := c; usd_value := usd;
                    requested_at := utc_datetime t; status := pending |}])).
      rewrite !fmap_app, H. reflexivity.
    + split; [discriminate|]. intros Habs. destruct (pending_redemptions d); discriminate.
Qed.

End AuditFile.

(** ** Nothing is deleted *)

Lemma same_request_refl r : same_request r r.
Proof. repeat split. Qed.

Lemma same_request_trans r1 r2 r3 :
  same_request r1 r2 -> same_request r2 r3 -> same_request r1 r3.
Proof.
  unfold same_request. intros (? & ? & ? & ? & ?) (? & ? & ? & ? & ?).
  repeat split; congruence.
Qed.

Section NothingDeleted.

Variable str_float : float -> string.

Lemma handle_keeps_requests q d i r :
  pending_redemptions d !! i = Some r ->
  exists r', pending_redemptions (snd (handle str_float q d)) !! i = Some r' /\
             same_request r r'.
Proof.
  intros Hi.
  destruct (handle_table str_float q d)
    as [[-> _] | [(f & -> & _ & _ & Hf) | (t & uid & usd & c & _ & ->)]].
  - exists r. split; [exact Hi | apply same_request_refl].
  - exists (f r). split; [rewrite list_lookup_fmap, Hi; reflexivity|].
    destruct Hf as [[rid ->] | [cutoff ->]];
      [apply mark_row_fields | apply expire_row_fields].
  - exists r. split; [|apply same_request_refl].
    rewrite exchanged_rows, get_or_create_user_rows.
    apply lookup_app_l_Some, Hi.
Qed.

Lemma handle_keeps_accounts q d v :
  is_Some (users d !! v) -> is_Some (users (snd (handle str_float q d)) !! v).
Proof.
  intros Hv.
  assert (forall t uid, is_Some (users (snd (get_or_create_user t uid d)) !! v))
    as Hgoc.
  { intros t uid. destruct Hv as [a Ha]. exists a.
    apply (get_or_create_user_keeps t uid d), Ha. }
  assert (forall uid f d1, is_Some (users d1 !! v) ->
            is_Some (users (update_user uid f d1) !! v)) as Hupd.
  { intros uid f d1 H1. rewrite update_user_lookup.
    case_decide; [apply fmap_is_Some|]; exact H1. }
  destruct q; cbn [handle].
  - unfold coin_earn. destruct (_ || _); [exact Hv|]. cbn [snd].
    apply Hupd, Hgoc.
  - unfold coin_redeem. destruct (_ || _); [exact Hv|].
    specialize (Hgoc t uid).
    destruct (get_or_create_user t uid d) as [user d1]. cbn [snd] in Hgoc.
    destruct (_ >? _); [exact Hgoc|]. cbn [snd]. apply Hupd, Hgoc.
  - destruct (coin_exchange_store t uid usd d) as [-> | [-> | (c & -> & _)]].
    + exact Hv.
    + apply Hgoc.
    + rewrite exchanged_lookup. case_decide; [apply fmap_is_Some|]; apply Hgoc.
  - unfold coin_status. destruct (user_id_missing uid); [exact Hv|].
    specialize (Hgoc t uid). destruct (get_or_create_user t uid d). exact Hgoc.
  - exact Hv.
  - unfold mark_redeem_paid. destruct (id_missing rid); exact Hv.
  - exact Hv.
  - cbn [reset_monthly snd users]. rewrite lookup_fmap. apply fmap_is_Some, Hv.
  - exact Hv.
Qed.

(** X17.  A recorded request is never deleted or moved, and its id, user,
    coins, dollar amount and time never change: after any sequence of
    requests the row at the same position differs in its status at most. *)
Theorem recorded_requests_change_status_only qs d i r :
  pending_redemptions d !! i = Some r ->
  exists r', pending_redemptions (run str_float qs d) !! i = Some r' /\
             same_request r r'.
Proof.
  unfold run. revert d r.
  induction qs as [|q qs IH]; intros d r Hi; cbn [foldl].
  - exists r. split; [exact Hi | apply same_request_refl].
  - destruct (handle_keeps_requests q d i r Hi) as (r1 & H1 & Hs1).
    destruct (IH _ r1 H1) as (r' & H' & Hs'). exists r'.
    split; [exact H' | exact (same_request_trans _ _ _ Hs1 Hs')].
Qed.

(** X18.  No request deletes an account: a user that has a row keeps one
    through any sequence of requests. *)
Theorem accounts_are_never_deleted qs d v :
  is_Some (users d !! v) -> is_Some (users (run str_float qs d) !! v).
Proof.
  unfold run. revert d.
  induction qs as [|q qs IH]; intros d Hv; cbn [foldl]; [exact Hv|].
  apply IH, handle_keeps_accounts, Hv.
Qed.

End NothingDeleted.

Lemma recorded_requests_change_status_only_witness :
  pending_redemptions ann_store !! 0%nat
  = Some {| id := 1; user_id := Some "ann"; coins_redeemed := 5000000;
            usd_value := of_int 5; requested_at := "2024-01-01 00:00:00";
            status := pending |} /\
  exists r',
    pending_redemptions
      (run repr_whole [MarkPaid (Some 1); ExpireOld "2024-02-01 00:00:00"]
         ann_store) !! 0%nat = Some r' /\
    same_request
      {| id := 1; user_id := Some "ann"; coins_redeemed := 5000000;
         usd_value := of_int 5; requested_at := "2024-01-01 00:00:00";
         status := pending |} r'.
Proof.
  assert (pending_redemptions ann_store !! 0%nat
          = Some {| id := 1; user_id := Some "ann"; coins_redeemed := 5000000;
                    usd_value := of_int 5; requested_at := "2024-01-01 00:00:00";
                    status := pending |}) as H by (vm_compute; reflexivity).
  split; [exact H|].
  apply (recorded_requests_change_status_only repr_whole _ ann_store 0%nat _ H).
Defined.

Lemma accounts_are_never_deleted_witness :
  is_Some (users funded !! "ann") /\
  is_Some (users (run repr_whole
                    [ResetMonthly t_late; ExpireOld "2024-02-01 00:00:00"]
                    funded) !! "ann").
Proof.
  assert (is_Some (users funded !! "ann")) as H
    by (vm_compute; eexists; reflexivity).
  split; [exact H|].
  apply (accounts_are_never_deleted repr_whole _ funded "ann" H).
Defined.

(** ** Coins that are reserved stay reserved *)

Lemma redeemed_of_get_or_create_user t uid u d :
  redeemed_of u (snd (get_or_create_user t uid d)) = redeemed_of u d.
Proof.
  unfold redeemed_of, get_or_create_user.
  destruct (select_user uid d) as [a|] eqn:E; [reflexivity|].
  destruct uid as [v|]; [|reflexivity].
  cbn [snd insert_user users select_user] in *.
  rewrite lookup_insert. case_decide as Hv; [|reflexivity].
  subst v. rewrite E. reflexivity.
Qed.

Lemma redeemed_of_update_user uid f u d :
  (uid = Some u -> forall a, monthly_coin_redeemed (f a) = monthly_coin_redeemed a) ->
  redeemed_of u (update_user uid f d) = redeemed_of u d.
Proof.
  intros Hf. unfold redeemed_of. rewrite update_user_lookup.
  case_decide as Hu; [|reflexivity].
  destruct (users d !! u) as [a|]; [|reflexivity]. cbn. apply Hf, Hu.
Qed.

Lemma coins_requested_by_snoc u rows r :
  coins_requested_by u (rows ++ [r])
  = coins_requested_by u rows
    + (if bool_decide (user_id r = Some u) then coins_redeemed r else 0).
Proof.
  unfold coins_requested_by.
  induction rows as [|r0 rows IH]; cbn [app foldr].
  - destruct (bool_decide (user_id r = Some u)); lia.
  - rewrite IH. destruct (bool_decide (user_id r0 = Some u));
      destruct (bool_decide (user_id r = Some u)); lia.
Qed.

Lemma coins_requested_by_fmap u (f : redemption -> redemption) rows :
  (forall r, user_id (f r) = user_id r /\ coins_redeemed (f r) = coins_redeemed r) ->
  coins_requested_by u (f <$> rows) = coins_requested_by u rows.
Proof.
  intros Hf. unfold coins_requested_by.
  induction rows as [|r rows IH]; [reflexivity|].
  rewrite fmap_cons. cbn [foldr]. destruct (Hf r) as [-> ->].
  rewrite IH. reflexivity.
Qed.

Section ReservedCoins.

Variable str_float : float -> string.

Lemma handle_ledger q d u :
  keeps_ledger u q ->
  redeemed_of u d = coins_requested_by u (pending_redemptions d) ->
  redeemed_of u (snd (handle str_float q d))
  = coins_requested_by u (pending_redemptions (snd (handle str_float q d))).
Proof.
  intros Hq H. destruct q; cbn [handle keeps_ledger] in *.
  - unfold coin_earn. destruct (_ || _); [exact H|]. cbn [snd].
    rewrite update_user_rows, get_or_create_user_rows,
      redeemed_of_update_user, redeemed_of_get_or_create_user by reflexivity.
    exact H.
  - unfold coin_redeem. destruct (_ || _); [exact H|].
    pose proof (redeemed_of_get_or_create_user t uid u d) as Hr.
    pose proof (get_or_create_user_rows t uid d) as Hrows.
    destruct (get_or_create_user t uid d) as [user d1]. cbn [snd] in *.
    destruct (_ >? _); cbn [snd].
    + rewrite Hr, Hrows. exact H.
    + rewrite update_user_rows, Hrows, redeemed_of_update_user, Hr
        by (intros; contradiction).
      exact H.
  - destruct (coin_exchange_store t uid usd d) as [-> | [-> | (c & -> & _)]].
    + exact H.
    + rewrite redeemed_of_get_or_create_user, get_or_create_user_rows. exact H.
    + rewrite exchanged_rows, get_or_create_user_rows, coins_requested_by_snoc.
      cbn [user_id coins_redeemed]. rewrite <- H.
      unfold redeemed_of at 1. rewrite exchanged_lookup.
      case_bool_decide as Hu.
      * rewrite decide_True by exact Hu. subst uid.
        rewrite get_or_create_user_lookup. cbn.
        rewrite <- (redeemed_of_get_or_create_user t (Some u) u d).
        unfold redeemed_of. rewrite get_or_create_user_lookup. reflexivity.
      * rewrite decide_False by exact Hu.
        fold (redeemed_of u (snd (get_or_create_user t uid d))).
        rewrite redeemed_of_get_or_create_user. lia.
  - unfold coin_status. destruct (user_id_missing uid); [exact H|].
    pose proof (redeemed_of_get_or_create_user t uid u d) as Hr.
    pose proof (get_or_create_user_rows t uid d) as Hrows.
    destruct (get_or_create_user t uid d) as [user d1]. cbn [snd] in *.
    rewrite Hr, Hrows. exact H.
  - exact H.
  - unfold mark_redeem_paid. destruct (id_missing rid); [exact H|].
    cbn [snd set_rows pending_redemptions]. rewrite coins_requested_by_fmap.
    + exact H.
    + intros r. unfold mark_row. destruct (_ =? _); auto.
  - cbn [expire_old_redemptions snd set_rows pending_redemptions].
    rewrite coins_requested_by_fmap.
    + exact H.
    + intros r. unfold expire_row. destruct (_ && _); auto.
  - contradiction.
  - exact H.
Qed.

(** X19.  As long as the user is not named by a Redeem and the month is
    not reset, the redeemed counter of a user is the sum of [coins_redeemed]
    over all the requests of that user in the table, whatever their status:
    a sweep that expires a request does not give its coins back. *)
Theorem reserved_coins_are_never_returned qs u :
  Forall (keeps_ledger u) qs ->
  redeemed_of u (run str_float qs init_db)
  = coins_requested_by u (pending_redemptions (run str_float qs init_db)).
Proof.
  intros Hqs.
  apply (run_invariant str_float
           (fun d => redeemed_of u d
                     = coins_requested_by u (pending_redemptions d)));
    [|reflexivity].
  intros q d Hin. apply handle_ledger.
  rewrite Forall_forall in Hqs. apply Hqs, list_elem_of_In, Hin.
Qed.

End ReservedCoins.

Lemma reserved_coins_are_never_returned_witness :
  Forall (keeps_ledger "ann") settle_expired /\
  status <$> pending_redemptions (run repr_whole settle_expired init_db)
  = [expired] /\
  redeemed_of "ann" (run repr_whole settle_expired init_db) = 5000000.
Proof.
  assert (Forall (keeps_ledger "ann") settle_expired) as H
    by (repeat constructor).
  split; [exact H|]. split; [vm_compute; reflexivity|].
  rewrite (reserved_coins_are_never_returned repr_whole settle_expired "ann" H).
  vm_compute. reflexivity.
Defined.

(** ** The key *)

(** X20.  A request whose [X-API-Key] header is missing or differs from
    [API_KEY] is answered with 403 before the handler runs: a sequence of
    requests leaves the store that the requests carrying the key leave by
    themselves. *)
Theorem requests_without_the_key_are_skipped API_KEY str_float kqs d :
  serve_all API_KEY str_float kqs d
  = run str_float
      (snd <$> filter (fun kq => fst kq = Some API_KEY) kqs) d.
Proof.
  unfold serve_all, run. revert d.
  induction kqs as [|[key q] kqs IH]; intros d; [reflexivity|].
  cbn [foldl fst snd]. rewrite IH, filter_cons. unfold serve, require_api_key.
  cbn [fst snd]. destruct (decide (key = Some API_KEY)) as [Hk|Hk].
  - rewrite bool_decide_eq_true_2 by exact Hk. reflexivity.
  - rewrite bool_decide_eq_false_2 by exact Hk. reflexivity.
Qed.
